(** * WebSearch: the tiered retrieval-and-cache engine

    A shallow embedding of [web-search/src/WebSearch.ts].  Strings are
    [string] (one character stands for one code unit), the cache is an
    insertion-ordered association list as a JavaScript [Map] is, the
    confidence score is a binary64 float as a JavaScript number is, and clock
    readings [Date.now() / 1000] are rationals, compared exactly.  What comes
    from outside the class (the [URL] parser, [JSON.parse], the HTTP client
    and the HTML queries) is a variable of a section, so every statement
    holds whatever these do. *)

From Stdlib Require Import ZArith List String Ascii QArith Floats Lia Lqa Bool.
From Stdlib Require Import Qminmax Qabs Permutation Sorted DecimalString Uint63.
Import ListNotations.

Set Warnings "-inexact-float".
Local Open Scope string_scope.

(** ** JavaScript values and control *)

(** What a [throw] carries: an [Error] object with its message, or any other
    value ([error instanceof Error] tells them apart). *)
Inductive Thrown : Type :=
| ErrorObject (message : string)
| OtherValue.

(** The outcome of evaluating a block: it returns or it throws. *)
Inductive completion (A : Type) : Type :=
| Normal (a : A)
| Throw (e : Thrown).
Arguments Normal {A} a.
Arguments Throw {A} e.

Definition try_catch {A : Type} (body : completion A) (handler : Thrown -> completion A)
  : completion A :=
  match body with
  | Normal a => Normal a
  | Throw e => handler e
  end.

Definition and_then {A B : Type} (c : completion A) (k : A -> completion B)
  : completion B :=
  match c with
  | Normal a => k a
  | Throw e => Throw e
  end.

Notation "'let*' x ':=' c 'in' k" := (and_then c (fun x => k))
  (at level 10, x name, c at level 100, k at level 200).

(** ** Strings as the code uses them *)

Definition nl : string := String (ascii_of_nat 10) "".
Definition dquote : string := String (ascii_of_nat 34) "".

(** [s.startsWith(p)]. *)
Definition startsWith (s p : string) : bool := prefix p s.

(** [s.includes(sub)]. *)
Fixpoint includes (s sub : string) : bool :=
  prefix sub s ||
  match s with
  | EmptyString => false
  | String _ rest => includes rest sub
  end.

Fixpoint drop (n : nat) (s : string) : string :=
  match n, s with
  | O, _ => s
  | S n', String _ rest => drop n' rest
  | S _, EmptyString => EmptyString
  end.

(** [s.replace(pat, rep)] with a string pattern: the first occurrence only. *)
Fixpoint replaceFirst (s pat rep : string) : string :=
  if prefix pat s then rep ++ drop (String.length pat) s
  else match s with
       | EmptyString => EmptyString
       | String c rest => String c (replaceFirst rest pat rep)
       end.

(** [parts.join(sep)]. *)
Definition join (sep : string) (parts : list string) : string := concat sep parts.

(** [c.repeat(n)]. *)
Fixpoint repeat_str (c : string) (n : nat) : string :=
  match n with
  | O => ""
  | S n' => c ++ repeat_str c n'
  end.

(** Truthiness of a [string | undefined]. *)
Definition truthy (o : option string) : bool :=
  match o with
  | Some s => negb (s =? "")
  | None => false
  end.

Definition nonEmpty (s : string) : bool := negb (s =? "").

(** [arr.includes(x)] on an array of strings. *)
Definition arrayIncludes (arr : list string) (x : string) : bool :=
  existsb (String.eqb x) arr.

(** [arr.push(x)] and [arr.push(...xs)], as the array after the call. *)
Definition push {A : Type} (arr : list A) (x : A) : list A := (arr ++ [x])%list.
Definition pushAll {A : Type} (arr xs : list A) : list A := (arr ++ xs)%list.

(** ** Addresses *)

(** The two fields of a parsed [URL] that the class reads. *)
Record URL : Type := mkURL { hostname : string; pathname : string }.

(** [url.startsWith('http') ? url : `https://${url}`] (scrapeWebsite, first line). *)
Definition normalizeUrl (url : string) : string :=
  if startsWith url "http" then url else "https://" ++ url.

(** A scheme in the sense of RFC 3986: a letter, then letters, digits, [+],
    [-] or [.], then a colon.  This is the reading of "has a scheme" that the
    statements below compare [normalizeUrl] with. *)
Definition isAlpha (c : ascii) : bool :=
  let n := nat_of_ascii c in
  ((65 <=? n) && (n <=? 90) || (97 <=? n) && (n <=? 122))%nat.

Definition isSchemeChar (c : ascii) : bool :=
  let n := nat_of_ascii c in
  isAlpha c || ((48 <=? n) && (n <=? 57))%nat
  || (n =? 43)%nat || (n =? 45)%nat || (n =? 46)%nat.

Fixpoint schemeTail (s : string) : bool :=
  match s with
  | EmptyString => false
  | String c rest =>
      if (nat_of_ascii c =? 58)%nat then true
      else isSchemeChar c && schemeTail rest
  end.

Definition hasScheme (s : string) : bool :=
  match s with
  | EmptyString => false
  | String c rest => isAlpha c && schemeTail rest
  end.

Section Addresses.

(** [new URL(s)]: the platform's parser, which throws on a string it cannot
    parse. *)
Variable newURL : string -> completion URL.

(** getCacheKey (lines 96-112). *)
Definition getCacheKey (url : string) : completion string :=
  try_catch
    (let* urlObj := newURL url in
     if includes (pathname urlObj) "/api/" then Normal url
     else Normal (hostname urlObj ++ pathname urlObj))
    (fun _ => Normal url).

(** The [try] block of getCacheTTL: [Some t] when it returns [t], [None]
    when control leaves the block without a [return]. *)
Definition getCacheTTL_try (url : string) : completion (option Z) :=
  let* urlObj := newURL url in
  if includes (pathname urlObj) "/feed" || includes (pathname urlObj) "/timeline"
  then Normal (Some 300%Z)
  else if includes (hostname urlObj) "github.com"
  then Normal (Some 1800%Z)
  else if includes (hostname urlObj) "news" || includes (hostname urlObj) "reddit"
  then Normal (Some 600%Z)
  else Normal None.

(** getCacheTTL (lines 119-145). *)
Definition getCacheTTL (url : string) : completion Z :=
  let* returned := try_catch (getCacheTTL_try url) (fun _ => Normal None) in
  match returned with
  | Some t => Normal t
  | None => Normal 3600%Z
  end.

End Addresses.

(** ** Numbers *)

Definition float_of_nat (n : nat) : float :=
  PrimFloat.of_uint63 (Uint63.of_Z (Z.of_nat n)).

(** [Math.min(a, b)] on numbers (the sign of a zero result apart, which no
    caller here can observe: the second argument is never zero). *)
Definition Math_min (a b : float) : float :=
  if is_nan a || is_nan b then nan
  else if (a <? b)%float then a else b.

(** [Math.ceil(x)] of a finite number, as an integer. *)
Definition Math_ceil (x : float) : Z :=
  match Prim2SF x with
  | S754_finite sign m e =>
      let num := if sign then Z.neg m else Z.pos m in
      if (0 <=? e)%Z then num * 2 ^ e
      else - ((- num) / 2 ^ (- e))
  | _ => 0
  end%Z.

Definition decimal (n : Z) : string := NilZero.string_of_uint (N.to_uint (Z.to_N n)).

(** [x.toFixed(0)] for a number below 1e21: the nearest integer, the larger
    one of two equally near, after the sign. *)
Definition toFixed0 (x : float) : string :=
  match Prim2SF x with
  | S754_zero _ => "0"
  | S754_finite sign m e =>
      let n := if (0 <=? e)%Z then Z.pos m * 2 ^ e
               else (2 * Z.pos m + 2 ^ (- e)) / 2 ^ (- e + 1) in
      (if sign then "-" else "") ++ decimal n
  | S754_infinity false => "Infinity"
  | S754_infinity true => "-Infinity"
  | S754_nan => "NaN"
  end%Z.

(** ** Extracted content *)

Record MetaData : Type := mkMetaData {
  title : option string;
  description : option string;
  image : option string;
  author : option string;
  publishedTime : option string
}.

Record Repository : Type := mkRepository {
  repo_name : string;
  repo_description : string
}.

Record GithubData : Type := mkGithubData {
  username : string;
  display_name : string;
  bio : string;
  location : string;
  website : option string;
  stats : list string;
  repositories : list Repository
}.

Record Heading : Type := mkHeading { level : string; heading_text : string }.

(** The object literal built in enhancedBasicScrape (lines 327-374). *)
Record ExtractedContent : Type := mkContent {
  jsonLd : list string;
  metaData : MetaData;
  mainContent : list string;
  githubData : option GithubData;
  headings : list Heading
}.

(** calculateConfidence (lines 152-174). *)
Definition calculateConfidence (content : ExtractedContent) : float :=
  let score := 0%float in
  let score :=
    if (0 <? List.length (jsonLd content))%nat then (score + 0.3)%float else score in
  let score :=
    if truthy (title (metaData content)) then (score + 0.2)%float else score in
  let score :=
    if truthy (description (metaData content)) then (score + 0.1)%float else score in
  let score :=
    if (0 <? List.length (mainContent content))%nat then
      let totalLength := String.length (join "" (mainContent content)) in
      if (500 <? totalLength)%nat then (score + 0.3)%float
      else if (200 <? totalLength)%nat then (score + 0.2)%float
      else if (50 <? totalLength)%nat then (score + 0.1)%float
      else score
    else score in
  let score :=
    match githubData content with
    | Some g => if nonEmpty (username g) then (score + 0.1)%float else score
    | None => score
    end in
  Math_min score 1%float.

Section Formatting.

(** [JSON.parse(json)['@type']] as the template literal prints it: [Some t]
    when the text parses and the property is truthy, [None] when it is
    falsy or anything in the [try] throws. *)
Variable jsonLdType : string -> option string.

Definition structuredSummary (blocks : list string) : list string :=
  flat_map (fun json =>
              match jsonLdType json with
              | Some t => ["- " ++ t]
              | None => []
              end) blocks.

(** The array [parts] at the end of formatContent (lines 183-230). *)
Definition formatParts (content : ExtractedContent) : list string :=
  let parts := [] in
  let parts :=
    match title (metaData content) with
    | Some t => if nonEmpty t then push parts ("Title: " ++ t) else parts
    | None => parts
    end in
  let parts :=
    match description (metaData content) with
    | Some d => if nonEmpty d then push parts ("Description: " ++ d) else parts
    | None => parts
    end in
  let parts :=
    match githubData content with
    | Some g =>
        let parts := push parts (nl ++ "GitHub Profile Data:") in
        let parts :=
          if nonEmpty (username g) then push parts ("Username: " ++ username g)
          else parts in
        let parts :=
          if nonEmpty (bio g) then push parts ("Bio: " ++ bio g) else parts in
        if (0 <? List.length (stats g))%nat
        then push parts ("Stats: " ++ join ", " (stats g))
        else parts
    | None => parts
    end in
  let parts :=
    if (0 <? List.length (mainContent content))%nat
    then pushAll (push parts (nl ++ "Main Content:")) (firstn 5 (mainContent content))
    else parts in
  let parts :=
    if (0 <? List.length (jsonLd content))%nat
    then pushAll (push parts (nl ++ "Structured Data Found:"))
                 (structuredSummary (jsonLd content))
    else parts in
  parts.

(** formatContent (lines 181-233). *)
Definition formatContent (content : ExtractedContent) : string :=
  let joined := join nl (formatParts content) in
  if nonEmpty joined then joined else "No content found".

End Formatting.

(** ** Sorting

    [arr.sort(compareFn)] is stable; [before a b] stands for
    [compareFn(a, b) <= 0].  For a comparator that orders the elements, the
    stable insertion sort below gives the array the engine's sort gives. *)
Section Sorting.

Context {A : Type}.
Variable before : A -> A -> bool.

Fixpoint insertInto (x : A) (sorted : list A) : list A :=
  match sorted with
  | [] => [x]
  | y :: rest => if before x y then x :: y :: rest else y :: insertInto x rest
  end.

Definition sortBy (arr : list A) : list A := fold_right insertInto [] arr.

End Sorting.

(** ** The content extractor's view of a document *)

(** What [$(selector)] gives after the boilerplate nodes were removed:
    [element.length], [element.text().trim()], and the trimmed text of each
    [p, h1, h2, h3, li] below it. *)
Record SelectorHit : Type := mkHit {
  matched : nat;
  hit_text : string;
  hit_parts : list string
}.

(** One element of [$('div, section, article, p')]: its own trimmed text and
    the number of anchors below it. *)
Record Candidate : Type := mkCandidate { own_text : string; anchors : nat }.

Record Document : Type := mkDocument {
  query : string -> SelectorHit;
  candidates : list Candidate
}.

Record Block : Type := mkBlock { text : string; score : nat }.

Definition contentSelectors : list string :=
  [ "main"; "article"; "[role=" ++ dquote ++ "main" ++ dquote ++ "]";
    "#content"; ".content"; ".markdown-body"; ".post-content";
    ".entry-content"; ".article-body"; ".story-body";
    "div[itemprop=" ++ dquote ++ "articleBody" ++ dquote ++ "]" ].

(** The white space of [/\s/] among the code units below 256: the controls
    U+0009 to U+000D, the space U+0020 and the no-break space U+00A0 (U+0085
    is not white space to a JS regular expression). Then the marks of
    [/[.!?]/]. *)
Definition isSpace (c : ascii) : bool :=
  let n := nat_of_ascii c in
  ((9 <=? n) && (n <=? 13) || (n =? 32) || (n =? 160))%nat.

Definition isSentenceEnd (c : ascii) : bool :=
  let n := nat_of_ascii c in
  ((n =? 46) || (n =? 33) || (n =? 63))%nat.

(** [(text.match(/[.!?]/g) || []).length]. *)
Fixpoint countMarks (s : string) : nat :=
  match s with
  | EmptyString => 0
  | String c rest => (if isSentenceEnd c then 1 else 0) + countMarks rest
  end.

(** The number of maximal runs of white space in [s]; [inRun] says whether
    the character before [s] was white space. *)
Fixpoint spaceRuns (inRun : bool) (s : string) : nat :=
  match s with
  | EmptyString => 0
  | String c rest =>
      if isSpace c then (if inRun then 0 else 1) + spaceRuns true rest
      else spaceRuns false rest
  end.

(** [text.split(/\s+/).length]. *)
Definition splitCount (s : string) : nat := S (spaceRuns false s).

(** The callback of the density pass (lines 272-292): the block it pushes,
    if any. *)
Definition scoreCandidate (el : Candidate) : option Block :=
  let text := own_text el in
  if (String.length text <? 50)%nat then None
  else
    let per100 := (float_of_nat (String.length text) / 100)%float in
    let linkDensity := (float_of_nat (anchors el) / per100)%float in
    let punctuationDensity := (float_of_nat (countMarks text) / per100)%float in
    let wordCount := splitCount text in
    let score :=
      ((if (10 <? wordCount)%nat then 1 else 0)
       + (if (linkDensity <? 0.3)%float then 1 else 0)
       + (if (0.5 <? punctuationDensity)%float then 1 else 0))%nat in
    if (2 <=? score)%nat then Some (mkBlock text score) else None.

(** [(a, b) => b.score - a.score || b.text.length - a.text.length]. *)
Definition compareBlocks (a b : Block) : Z :=
  let byScore := (Z.of_nat (score b) - Z.of_nat (score a))%Z in
  if (byScore =? 0)%Z
  then (Z.of_nat (String.length (text b)) - Z.of_nat (String.length (text a)))%Z
  else byScore.

Definition blockBefore (a b : Block) : bool := (compareBlocks a b <=? 0)%Z.

Definition densityBlocks (doc : Document) : list Block :=
  flat_map (fun el => match scoreCandidate el with
                      | Some b => [b]
                      | None => []
                      end) (candidates doc).

(** The density fallback (lines 270-298). *)
Definition densityFallback (doc : Document) : list string :=
  map text (firstn 10 (sortBy blockBefore (densityBlocks doc))).

(** The selector loop (lines 252-267): the first selector that matches and
    whose trimmed text is longer than 100 characters decides. *)
Fixpoint selectorCascade (doc : Document) (selectors : list string)
  : option (list string) :=
  match selectors with
  | [] => None
  | selector :: rest =>
      let element := query doc selector in
      if (0 <? matched element)%nat && (100 <? String.length (hit_text element))%nat
      then Some (filter (fun t => (20 <? String.length t)%nat) (hit_parts element))
      else selectorCascade doc rest
  end.

(** extractMainContent (lines 240-299). *)
Definition extractMainContent (doc : Document) : list string :=
  match selectorCascade doc contentSelectors with
  | Some paragraphs => paragraphs
  | None => densityFallback doc
  end.

(** ** The cache store

    A JavaScript [Map]: keys are unique and kept in insertion order;
    [set] on a present key keeps its place. *)
Record CacheEntry : Type := mkEntry {
  content : string;
  timestamp : Q;
  ttl : Z
}.

Definition Cache : Type := list (string * CacheEntry).

Module JsMap.

Fixpoint get (key : string) (m : Cache) : option CacheEntry :=
  match m with
  | [] => None
  | (k, v) :: rest => if k =? key then Some v else get key rest
  end.

Fixpoint set (key : string) (value : CacheEntry) (m : Cache) : Cache :=
  match m with
  | [] => [(key, value)]
  | (k, v) :: rest =>
      if k =? key then (k, value) :: rest else (k, v) :: set key value rest
  end.

Fixpoint delete (key : string) (m : Cache) : Cache :=
  match m with
  | [] => []
  | (k, v) :: rest => if k =? key then rest else (k, v) :: delete key rest
  end.

Definition size (m : Cache) : nat := List.length m.

Definition entries (m : Cache) : list (string * CacheEntry) := m.

Definition clear (m : Cache) : Cache := [].

Definition keys (m : Cache) : list string := map fst m.

End JsMap.

(** The state of a well-formed [Map]: no key twice. *)
Definition wellFormed (m : Cache) : Prop := NoDup (JsMap.keys m).

(** ** Methods that read or write the cache

    A method runs from a cache to a completion and the cache it leaves; what
    was written before a [throw] stays written. *)
Definition M (A : Type) : Type := Cache -> completion A * Cache.

Definition ret {A : Type} (a : A) : M A := fun cache => (Normal a, cache).

Definition lift {A : Type} (c : completion A) : M A := fun cache => (c, cache).

Definition bind {A B : Type} (m : M A) (k : A -> M B) : M B :=
  fun cache =>
    match m cache with
    | (Normal a, cache') => k a cache'
    | (Throw e, cache') => (Throw e, cache')
    end.

Definition tryM {A : Type} (body : M A) (handler : Thrown -> M A) : M A :=
  fun cache =>
    match body cache with
    | (Normal a, cache') => (Normal a, cache')
    | (Throw e, cache') => handler e cache'
    end.

Definition reads {A : Type} (f : Cache -> A) : M A :=
  fun cache => (Normal (f cache), cache).

Definition writes (f : Cache -> Cache) : M unit :=
  fun cache => (Normal tt, f cache).

Notation "x <- m ;; k" := (bind m (fun x => k))
  (at level 61, m at next level, right associativity).
Notation "m ;;; k" := (bind m (fun _ => k))
  (at level 61, right associativity).

Definition cacheSizeLimit : nat := 50.

(** [Math.ceil(this.cacheSizeLimit * 0.1)]. *)
Definition toRemove : nat :=
  Z.to_nat (Math_ceil (float_of_nat cacheSizeLimit * 0.1)%float).

(** [(a, b) => a[1].timestamp - b[1].timestamp], read as "not after". *)
Definition oldestFirst (a b : string * CacheEntry) : bool :=
  Qle_bool (timestamp (snd a) - timestamp (snd b)) 0.

(** The loop [for (let i = 0; i < toRemove; i++) this.cache.delete(entries[i][0])],
    with [n] iterations left; reading [entries[i][0]] past the end throws. *)
Fixpoint evictLoop (sorted : list (string * CacheEntry)) (n i : nat) : M unit :=
  match n with
  | O => ret tt
  | S n' =>
      match nth_error sorted i with
      | Some (key, _) => writes (JsMap.delete key) ;;; evictLoop sorted n' (S i)
      | None =>
          lift (Throw (ErrorObject "Cannot read properties of undefined (reading '0')"))
      end
  end.

(** updateCache (lines 606-624); [now] is its reading of [Date.now() / 1000]. *)
Definition updateCache (key content : string) (ttl : Z) (now : Q) : M unit :=
  size <- reads JsMap.size ;;
  (if (cacheSizeLimit <=? size)%nat
   then
     sorted <- reads (fun cache => sortBy oldestFirst (JsMap.entries cache)) ;;
     evictLoop sorted toRemove 0
   else ret tt) ;;;
  writes (JsMap.set key (mkEntry content now ttl)).

(** ** Strategies (lines 36-44) *)

Definition basic : list string :=
  ["github.com"; "wikipedia.org"; "docs.python.org"; "stackoverflow.com"].

Definition apiKeys : list string :=
  ["github.com"; "reddit.com"; "news.ycombinator.com"].

Definition dynamic : list string :=
  ["instagram.com"; "x.com"; "twitter.com"; "linkedin.com"; "facebook.com"].

(** The names every object inherits, which [in] also finds. *)
Definition inheritedKeys : list string :=
  ["constructor"; "__defineGetter__"; "__defineSetter__"; "hasOwnProperty";
   "__lookupGetter__"; "__lookupSetter__"; "isPrototypeOf";
   "propertyIsEnumerable"; "toString"; "valueOf"; "__proto__"; "toLocaleString"].

(** [domain in this.strategies.api]. *)
Definition inApi (domain : string) : bool :=
  arrayIncludes apiKeys domain || arrayIncludes inheritedKeys domain.

(** ** Retrieval *)

(** What the HTML queries of enhancedBasicScrape give on the fetched page. *)
Record Page : Type := mkPage {
  page_jsonLd : list (option string);
  page_metaData : MetaData;
  page_document : Document;
  page_github : GithubData;
  page_headings : list Heading
}.

Definition bar : string := repeat_str "=" 30.

(** The mark that opens the caveat, as the bytes of the source file. *)
Definition warningSign : string :=
  fold_right (fun n s => String (ascii_of_nat n) s) ""
             [195; 162; 197; 161; 194; 160; 195; 175; 194; 184]%nat.

Definition warning : string :=
  nl ++ nl ++ warningSign
     ++ " Note: This site loads content dynamically. Some information may be missing.".

(** [(now - cached.timestamp) < cached.ttl] (line 526). *)
Definition isFresh (now : Q) (cached : CacheEntry) : bool :=
  negb (Qle_bool (inject_Z (ttl cached)) (now - timestamp cached)).

(** [error instanceof Error ? error.message : 'Unknown error']. *)
Definition errorMessageOf (error : Thrown) : string :=
  match error with
  | ErrorObject message => message
  | OtherValue => "Unknown error"
  end.

Section Retrieval.

Variable newURL : string -> completion URL.
Variable jsonLdType : string -> option string.

(** [scrapeViaAPI(url)]: the text the public API gives, or what it throws. *)
Variable scrapeViaAPI : string -> completion string.

(** [axios.get(url, ...)] followed by the queries on the loaded page, or what
    the request throws. *)
Variable fetchPage : string -> completion Page.

(** enhancedBasicScrape (lines 306-383). *)
Definition enhancedBasicScrape (url : string) : completion (string * float) :=
  let* page := fetchPage url in
  let* urlObj := newURL url in
  let domain := hostname urlObj in
  let content :=
    {| jsonLd := flat_map (fun html => match html with
                                       | Some s => if nonEmpty s then [s] else []
                                       | None => []
                                       end) (page_jsonLd page);
       metaData := page_metaData page;
       mainContent := extractMainContent (page_document page);
       githubData := if includes domain "github.com"
                     then Some (page_github page) else None;
       headings := firstn 10 (page_headings page) |} in
  let confidence := calculateConfidence content in
  Normal (formatContent jsonLdType content, confidence).

(** The tiers inside the [try] of scrapeWebsite (lines 533-584). *)
Definition scrapeWebsite_try (normalizedUrl cacheKey : string) (writeTime : Q)
  : M string :=
  urlObj <- lift (newURL normalizedUrl) ;;
  let domain := replaceFirst (hostname urlObj) "www." "" in
  viaApi <-
    (if inApi domain
     then tryM
            (apiContent <- lift (scrapeViaAPI normalizedUrl) ;;
             ttl <- lift (getCacheTTL newURL normalizedUrl) ;;
             updateCache cacheKey apiContent ttl writeTime ;;;
             ret (Some ("API content from " ++ normalizedUrl ++ ":" ++ nl
                          ++ bar ++ nl ++ apiContent)))
            (fun apiError => ret None)
     else ret None) ;;
  match viaApi with
  | Some response => ret response
  | None =>
      scraped <- lift (enhancedBasicScrape normalizedUrl) ;;
      let '(content, confidence) := scraped in
      if (0.5 <? confidence)%float || arrayIncludes basic domain
      then
        ttl <- lift (getCacheTTL newURL normalizedUrl) ;;
        updateCache cacheKey content ttl writeTime ;;;
        ret ("Scraped content from " ++ normalizedUrl ++ " (confidence: "
               ++ toFixed0 (confidence * 100)%float ++ "%):" ++ nl
               ++ bar ++ nl ++ content)
      else if arrayIncludes dynamic domain
      then
        let contentWithWarning := content ++ warning in
        normalTtl <- lift (getCacheTTL newURL normalizedUrl) ;;
        let ttl := Z.min normalTtl 600 in
        updateCache cacheKey contentWithWarning ttl writeTime ;;;
        ret ("Scraped content from " ++ normalizedUrl ++ " (dynamic site):" ++ nl
               ++ bar ++ nl ++ contentWithWarning)
      else
        ttl <- lift (getCacheTTL newURL normalizedUrl) ;;
        updateCache cacheKey content ttl writeTime ;;;
        ret ("Scraped content from " ++ normalizedUrl ++ ":" ++ nl
               ++ bar ++ nl ++ content)
  end.

(** The [catch] of scrapeWebsite (lines 586-597). *)
Definition scrapeWebsite_catch (normalizedUrl cacheKey : string) (error : Thrown)
  : M string :=
  let errorMessage := errorMessageOf error in
  cached <- reads (JsMap.get cacheKey) ;;
  match cached with
  | Some entry =>
      if includes errorMessage "ETIMEDOUT"
      then ret ("Cached content from " ++ normalizedUrl ++ " (network timeout):" ++ nl
                  ++ bar ++ nl ++ content entry)
      else ret ("Error scraping " ++ normalizedUrl ++ ": " ++ errorMessage)
  | None => ret ("Error scraping " ++ normalizedUrl ++ ": " ++ errorMessage)
  end.

(** scrapeWebsite (lines 518-598); [now] is the reading of the clock on
    entry, [writeTime] the one updateCache makes. *)
Definition scrapeWebsite (url : string) (now writeTime : Q) : M string :=
  let normalizedUrl := normalizeUrl url in
  cacheKey <- lift (getCacheKey newURL normalizedUrl) ;;
  cached <- reads (JsMap.get cacheKey) ;;
  let retrieve :=
    tryM (scrapeWebsite_try normalizedUrl cacheKey writeTime)
         (scrapeWebsite_catch normalizedUrl cacheKey) in
  match cached with
  | Some entry =>
      if isFresh now entry
      then ret ("Cached content from " ++ normalizedUrl ++ ":" ++ nl
                  ++ bar ++ nl ++ content entry)
      else retrieve
  | None => retrieve
  end.

End Retrieval.

(** ** A reference parser for the worked examples

    [plainURL] reads [http://host/path?query#fragment] and the same with
    [https]: on an address made of a lower-case host name without port or
    user information and a path without dot segments it gives the host name
    and path the platform's [URL] gives, and like the platform's parser it
    throws on a string without a scheme.  The theorems below hold for any
    parser; this one instantiates them on such strings. *)
Fixpoint untilAny (stops : list ascii) (s : string) : string * string :=
  match s with
  | EmptyString => (EmptyString, EmptyString)
  | String c rest =>
      if existsb (Ascii.eqb c) stops then (EmptyString, s)
      else let '(before, after) := untilAny stops rest in (String c before, after)
  end.

Definition plainURL (s : string) : completion URL :=
  let afterScheme :=
    if prefix "https://" s then Some (drop 8 s)
    else if prefix "http://" s then Some (drop 7 s)
    else None in
  match afterScheme with
  | None => Throw (ErrorObject "Invalid URL")
  | Some rest =>
      let '(host, tail) := untilAny ["/"; "?"; "#"]%char rest in
      let '(path, _) := untilAny ["?"; "#"]%char tail in
      if nonEmpty host
      then Normal (mkURL host (if nonEmpty path then path else "/"))
      else Throw (ErrorObject "Invalid URL")
  end.

(** ** Runs of the cache store *)

(** The cache the eviction loop leaves when it runs to its end. *)
Definition evictOldest (cache : Cache) : Cache :=
  fold_left (fun m entry => JsMap.delete (fst entry) m)
            (firstn toRemove (sortBy oldestFirst (JsMap.entries cache))) cache.

(** One call of updateCache: its arguments and its clock reading. *)
Record Put : Type := mkPut {
  put_key : string;
  put_content : string;
  put_ttl : Z;
  put_now : Q
}.

Definition runPut (cache : Cache) (p : Put) : Cache :=
  snd (updateCache (put_key p) (put_content p) (put_ttl p) (put_now p) cache).

(** The cache after a sequence of calls on the empty [Map] of the
    constructor. *)
Definition runPuts (puts : list Put) : Cache := fold_left runPut puts [].

(** Fifty calls with keys [page0] ... [page49], stored at seconds 0 ... 49:
    a full store, for the worked examples. *)
Definition fiftyPuts : list Put :=
  map (fun i => mkPut ("page" ++ decimal (Z.of_nat i)) "text" 3600 (inject_Z (Z.of_nat i)))
      (seq 0 50).

(** ** A small world for the worked examples *)

Definition noDocument : Document :=
  mkDocument (fun _ => mkHit 0 "" []) [].

Definition noProfile : GithubData := mkGithubData "" "" "" "" None [] [].

(** A page of which only the title could be read. *)
Definition titleOnlyPage : Page :=
  mkPage [] (mkMetaData (Some "Profile") None None None None) noDocument noProfile [].

Definition pageLoads (url : string) : completion Page := Normal titleOnlyPage.

Definition connectionTimesOut (url : string) : completion Page :=
  Throw (ErrorObject "connect ETIMEDOUT 93.184.216.34:443").

(** The page request's own timer firing ([timeout: 10000], line 309), in the
    words of the HTTP client. *)
Definition requestTimesOut (url : string) : completion Page :=
  Throw (ErrorObject "timeout of 10000ms exceeded").

Definition pageNotFound (url : string) : completion Page :=
  Throw (ErrorObject "Request failed with status code 404").

(** A request that throws a value that is not an [Error]. *)
Definition throwsOtherValue (url : string) : completion Page := Throw OtherValue.

Definition noApi (url : string) : completion string :=
  Throw (ErrorObject "No API available for this site").

Definition noType (json : string) : option string := None.

(** A store whose one entry, under [example.com/], was written at second 0
    with a TTL of 3600 seconds. *)
Definition oneEntry : Cache := [("example.com/", mkEntry "stored text" 0 3600)].

(** A page whose [main] element holds eleven paragraphs of 29 characters. *)
Definition elevenParagraphs : Document :=
  mkDocument
    (fun selector =>
       if selector =? "main"
       then mkHit 1 (repeat_str "A paragraph of enough length. " 11)
                  (repeat "A paragraph of enough length." 11)
       else mkHit 0 "" [])
    [].

(** A page whose [main] element is too short to qualify, and whose [article]
    and [.content] elements both qualify. *)
Definition shortMainLongArticle : Document :=
  mkDocument
    (fun selector =>
       if selector =? "main" then mkHit 1 "Menu" ["Menu"]
       else if selector =? "article"
       then mkHit 1 (repeat_str "A paragraph of the article.... " 4)
                  (repeat "A paragraph of the article...." 4)
       else if selector =? ".content"
       then mkHit 1 (repeat_str "A paragraph of the content.... " 5)
                  (repeat "A paragraph of the content...." 5)
       else mkHit 0 "" [])
    [].

(** ** The scorer's contract, in its own words

    The increments that apply, in the order the contract lists them, added
    up from zero and capped at one; and the same sum in exact tenths. *)
Definition lengthIncrement (totalLength : nat) : list float :=
  if (500 <? totalLength)%nat then [0.3%float]
  else if (200 <? totalLength)%nat then [0.2%float]
  else if (50 <? totalLength)%nat then [0.1%float]
  else [].

Definition hasProfileId (content : ExtractedContent) : bool :=
  match githubData content with
  | Some g => nonEmpty (username g)
  | None => false
  end.

Definition increments (content : ExtractedContent) : list float :=
  ((if (1 <=? List.length (jsonLd content))%nat then [0.3%float] else [])
   ++ (if truthy (title (metaData content)) then [0.2%float] else [])
   ++ (if truthy (description (metaData content)) then [0.1%float] else [])
   ++ lengthIncrement (String.length (join "" (mainContent content)))
   ++ (if hasProfileId content then [0.1%float] else []))%list.

Definition cappedSum (terms : list float) : float :=
  Math_min (fold_left PrimFloat.add terms 0%float) 1%float.

Definition exactTenths (content : ExtractedContent) : Z :=
  let n := String.length (join "" (mainContent content)) in
  ((if (1 <=? List.length (jsonLd content))%nat then 3 else 0)
   + (if truthy (title (metaData content)) then 2 else 0)
   + (if truthy (description (metaData content)) then 1 else 0)
   + (if (500 <? n)%nat then 3 else if (200 <? n)%nat then 2
      else if (50 <? n)%nat then 1 else 0)
   + (if hasProfileId content then 1 else 0))%Z.

Definition exactScore (content : ExtractedContent) : Q :=
  Qmin (inject_Z (exactTenths content) / 10) 1.

(** The rational a finite binary64 number denotes. *)
Definition float_to_Q (x : float) : Q :=
  match Prim2SF x with
  | S754_finite sign m e =>
      (if sign then -1 else 1) * inject_Z (Z.pos m) * (2 ^ e)
  | _ => 0
  end%Q.

(** ** Content with another list of main-content blocks *)
Definition withMainContent (content : ExtractedContent) (blocks : list string)
  : ExtractedContent :=
  {| jsonLd := jsonLd content;
     metaData := metaData content;
     mainContent := blocks;
     githubData := githubData content;
     headings := headings content |}.

Definition withJsonLd (content : ExtractedContent) (blocks : list string)
  : ExtractedContent :=
  {| jsonLd := blocks;
     metaData := metaData content;
     mainContent := mainContent content;
     githubData := githubData content;
     headings := headings content |}.

(** The decision table of getCacheTTL on a parsed address. *)
Definition ttlPolicy (urlObj : URL) : Z :=
  if includes (pathname urlObj) "/feed" || includes (pathname urlObj) "/timeline"
  then 300%Z
  else if includes (hostname urlObj) "github.com" then 1800%Z
  else if includes (hostname urlObj) "news" || includes (hostname urlObj) "reddit"
  then 600%Z
  else 3600%Z.

(** ** The connectivity prober and the engine's state *)

(** [lastConnectivityCheck]: what the last probe found, and when. *)
Record ConnectivityCheck : Type := mkCheck {
  isConnected : bool;
  checkedAt : Q
}.

Definition connectivityTTL : Z := 60.

(** [(now - this.lastConnectivityCheck.timestamp) < this.connectivityTTL]. *)
Definition checkIsRecent (now : Q) (last : ConnectivityCheck) : bool :=
  negb (Qle_bool (inject_Z connectivityTTL) (now - checkedAt last)).

(** checkInternetConnection (lines 70-89), from the memoized check to the
    answer and the memoized check it leaves; [head] is what
    [axios.head('https://www.google.com')] gives, the status of the response
    or what the request throws, and [now] the reading of [Date.now() / 1000]. *)
Definition checkInternetConnection
  (head : completion Z) (now : Q) (last : option ConnectivityCheck)
  : completion bool * option ConnectivityCheck :=
  let probe :=
    match head with
    | Normal status =>
        let check := mkCheck (status <? 300)%Z now in
        (Normal (isConnected check), Some check)
    | Throw _ => (Normal false, Some (mkCheck false now))
    end in
  match last with
  | Some check =>
      if checkIsRecent now check then (Normal (isConnected check), last) else probe
  | None => probe
  end.

(** The two mutable fields of the class. *)
Record Engine : Type := mkEngine {
  engineCache : Cache;
  lastConnectivityCheck : option ConnectivityCheck
}.

(** The state the constructor leaves (lines 27 and 62). *)
Definition newEngine : Engine := mkEngine [] None.

(** resetCache (lines 629-633). *)
Definition resetCache (engine : Engine) : Engine :=
  mkEngine (JsMap.clear (engineCache engine)) None.

(** ** The tool handler *)

(** What one request meets outside the class: the answer to the probe, the
    API text and the page for an address, and the two clock readings. *)
Record Network : Type := mkNetwork {
  headStatus : completion Z;
  apiText : string -> completion string;
  pageAt : string -> completion Page;
  clock : Q;
  writeClock : Q
}.

(** What the [url] of the [arguments] object can be, the object coming from
    JSON: absent, null, a string, or a value of another kind (a boolean, a
    number, an array, an object), none of which has a [startsWith] to call. *)
Inductive UrlValue : Type :=
  | UrlAbsent
  | UrlNull
  | UrlString (url : string)
  | UrlOther.

(** [request.params]: the name of the tool, and the [arguments] object ([None]
    when the request has none) with its [url]. *)
Record ToolCall : Type := mkCall {
  toolName : string;
  arguments : option UrlValue
}.

Section Handler.

Variable newURL : string -> completion URL.
Variable jsonLdType : string -> option string.

(** The handler of [CallToolRequestSchema] (lines 680-714), as the text of
    the result it returns. *)
Definition callTool (request : ToolCall) (net : Network) (engine : Engine)
  : completion string * Engine :=
  if toolName request =? "check_internet" then
    let '(answer, last) :=
      checkInternetConnection (headStatus net) (clock net)
                              (lastConnectivityCheck engine) in
    (match answer with
     | Normal connected =>
         Normal ("Internet: " ++ (if connected then "Connected" else "Offline"))
     | Throw e => Throw e
     end,
     mkEngine (engineCache engine) last)
  else if toolName request =? "scrape_website" then
    match arguments request with
    | None =>
        (Throw (ErrorObject "Cannot read properties of undefined (reading 'url')"),
         engine)
    | Some UrlAbsent =>
        (Throw (ErrorObject
                  "Cannot read properties of undefined (reading 'startsWith')"),
         engine)
    | Some UrlNull =>
        (Throw (ErrorObject
                  "Cannot read properties of null (reading 'startsWith')"),
         engine)
    | Some UrlOther =>
        (Throw (ErrorObject "url.startsWith is not a function"), engine)
    | Some (UrlString url) =>
        let '(text, cache) :=
          scrapeWebsite newURL jsonLdType (apiText net) (pageAt net)
                        url (clock net) (writeClock net) (engineCache engine) in
        (text, mkEngine cache (lastConnectivityCheck engine))
    end
  else if toolName request =? "reset_cache" then
    (Normal "Cache cleared", resetCache engine)
  else (Throw (ErrorObject ("Unknown tool: " ++ toolName request)), engine).

(** A session: the requests in turn, each with what it meets, from a given
    state; the results in order and the state left. *)
Fixpoint session (requests : list (ToolCall * Network)) (engine : Engine)
  : list (completion string) * Engine :=
  match requests with
  | [] => ([], engine)
  | (request, net) :: rest =>
      let '(result, engine') := callTool request net engine in
      let '(results, final) := session rest engine' in
      (result :: results, final)
  end.

End Handler.

(** ** The structured-API adapter *)

(** The fields scrapeViaAPI reads of what the public APIs send: a user, a
    repository and an event of the profile host, a story of the aggregator.
    A text field is [None] when it is absent or null. *)
Record ApiUser : Type := mkApiUser {
  user_name : option string;
  user_bio : option string;
  user_company : option string;
  user_location : option string;
  user_blog : option string;
  public_repos : nat;
  followers : nat;
  following : nat
}.

Record ApiRepo : Type := mkApiRepo {
  api_repo_name : string;
  fork : bool;
  api_repo_description : option string;
  language : option string;
  stargazers_count : nat;
  forks_count : nat
}.

Record ApiEvent : Type := mkApiEvent {
  event_type : string;
  event_repo_name : string
}.

Record Story : Type := mkStory {
  story_title : string;
  story_score : nat;
  story_descendants : option nat;
  story_url : option string
}.

(** What the requests of scrapeViaAPI give: the three of the profile host by
    user name (and, when the user and the repository requests both fail,
    which of the two [Promise.all] reports), the list of story ids, and a
    story by id ([None] for a null body). *)
Record ApiNetwork : Type := mkApiNetwork {
  getUser : string -> completion ApiUser;
  getRepos : string -> completion (list ApiRepo);
  getEvents : string -> completion (list ApiEvent);
  reposRejectsFirst : bool;
  getTopStories : completion (list Z);
  getItem : Z -> completion (option Story)
}.

(** [s.split(sep)] for a separator of one character. *)
Fixpoint splitOn (sep : ascii) (s : string) : list string :=
  match s with
  | EmptyString => [EmptyString]
  | String c rest =>
      if Ascii.eqb c sep then EmptyString :: splitOn sep rest
      else match splitOn sep rest with
           | piece :: pieces => String c piece :: pieces
           | [] => [String c EmptyString]
           end
  end.

(** [s.replace(/Event$/, '')]. *)
Fixpoint stripEvent (s : string) : string :=
  if s =? "Event" then EmptyString
  else match s with
       | EmptyString => EmptyString
       | String c rest => String c (stripEvent rest)
       end.

Definition number (n : nat) : string := decimal (Z.of_nat n).

Definition bytes (codes : list nat) : string :=
  fold_right (fun n s => String (ascii_of_nat n) s) "" codes.

(** The two marks of a repository's counts, as the bytes of the source file. *)
Definition starMark : string := bytes [195; 162; 194; 173]%nat.
Definition forkMark : string := bytes [195; 176; 197; 184; 194; 180]%nat.

(** [cond ? `label${value}` : null], before [filter(Boolean)]. *)
Definition optionalLine (label : string) (value : option string) : list string :=
  match value with
  | Some v => if nonEmpty v then [label ++ v] else []
  | None => []
  end.

(** The lines one repository adds (lines 448-451). *)
Definition repoLines (repo : ApiRepo) : list string :=
  let header :=
    "- " ++ api_repo_name repo ++ (if fork repo then " (fork)" else "") in
  let counts :=
    "  " ++ starMark ++ " " ++ number (stargazers_count repo)
      ++ " | " ++ forkMark ++ " " ++ number (forks_count repo) in
  ([header]
   ++ optionalLine "  " (api_repo_description repo)
   ++ optionalLine "  Language: " (language repo)
   ++ [counts])%list.

(** The line one event adds (lines 460-461). *)
Definition eventLine (event : ApiEvent) : string :=
  "- " ++ stripEvent (event_type event) ++ " in " ++ event_repo_name event.

(** The text of a profile (lines 426-465). *)
Definition formatProfile
  (username : string) (user : ApiUser) (repos : list ApiRepo) (events : list ApiEvent)
  : string :=
  let shownName :=
    match user_name user with
    | Some n => if nonEmpty n then n else username
    | None => username
    end in
  let stats :=
    [nl ++ "Stats:";
     "- Public Repos: " ++ number (public_repos user);
     "- Followers: " ++ number (followers user);
     "- Following: " ++ number (following user)] in
  let parts :=
    (["GitHub Profile: " ++ shownName]%string
     ++ optionalLine "Bio: " (user_bio user)
     ++ optionalLine "Company: " (user_company user)
     ++ optionalLine "Location: " (user_location user)
     ++ optionalLine "Website: " (user_blog user)
     ++ stats)%list in
  let parts :=
    if (0 <? List.length repos)%nat
    then pushAll (push parts (nl ++ "Recent Repositories:"))
                 (flat_map repoLines (firstn 5 repos))
    else parts in
  let parts :=
    if (0 <? List.length events)%nat
    then pushAll (push parts (nl ++ "Recent Activity:"))
                 (map eventLine (firstn 3 events))
    else parts in
  join nl parts.

(** The lines of story number [i] (from 0) of the list (lines 496-498). *)
Definition storyLines (i : nat) (story : Story) : list string :=
  let comments :=
    match story_descendants story with
    | Some n => n
    | None => 0%nat
    end in
  ([number (i + 1) ++ ". " ++ story_title story;
    "   " ++ number (story_score story) ++ " points | "
      ++ number comments ++ " comments"]%string
   ++ optionalLine "   " (story_url story))%list.

Fixpoint storiesLines (i : nat) (stories : list Story) : list string :=
  match stories with
  | [] => []
  | story :: rest => (storyLines i story ++ storiesLines (S i) rest)%list
  end.

(** [Promise.all] over the item requests followed by the reading of each
    story: the stories when every request gave one, and otherwise a throw
    (of the request, or of reading [title] of null). *)
Fixpoint allStories (items : list (completion (option Story)))
  : completion (list Story) :=
  match items with
  | [] => Normal []
  | item :: rest =>
      let* body := item in
      let* stories := allStories rest in
      match body with
      | Some story => Normal (story :: stories)
      | None => Throw (ErrorObject "Cannot read properties of null (reading 'title')")
      end
  end.

Section StructuredApi.

Variable newURL : string -> completion URL.
Variable api : ApiNetwork.

(** [Promise.all] over the three requests of a profile, the third with its
    [catch] (lines 409-424). *)
Definition profileRequests (username : string)
  : completion (ApiUser * list ApiRepo * list ApiEvent) :=
  let events :=
    match getEvents api username with
    | Normal data => data
    | Throw _ => []
    end in
  match getUser api username, getRepos api username with
  | Normal user, Normal repos => Normal (user, repos, events)
  | Throw e, Normal _ => Throw e
  | Normal _, Throw e => Throw e
  | Throw userError, Throw reposError =>
      Throw (if reposRejectsFirst api then reposError else userError)
  end.

(** The profile-host branch (lines 398-472): [Some text] when it returns. *)
Definition viaProfileHost (domain : string) (urlObj : URL) : completion (option string) :=
  if includes domain "github.com" then
    let pathParts := filter nonEmpty (splitOn "/" (pathname urlObj)) in
    match pathParts with
    | username :: _ =>
        try_catch
          (let* responses := profileRequests username in
           let '(user, repos, events) := responses in
           Normal (Some (formatProfile username user repos events)))
          (fun error => Throw error)
    | [] => Normal None
    end
  else Normal None.

(** The aggregator branch (lines 477-507): [Some text] when it returns. *)
Definition viaAggregator (domain : string) (urlObj : URL) : completion (option string) :=
  if includes domain "news.ycombinator.com" then
    try_catch
      (if (pathname urlObj =? "/") || (pathname urlObj =? "/news")
       then
         let* ids := getTopStories api in
         let topStoryIds := firstn 10 ids in
         let* stories := allStories (map (getItem api) topStoryIds) in
         let parts := ("Hacker News Top Stories:" ++ nl) :: storiesLines 0 stories in
         Normal (Some (join nl parts))
       else Normal None)
      (fun _ => Normal None)
  else Normal None.

(** scrapeViaAPI (lines 390-511). *)
Definition scrapeViaAPI (url : string) : completion string :=
  let* urlObj := newURL url in
  let domain := replaceFirst (hostname urlObj) "www." "" in
  let* profile := viaProfileHost domain urlObj in
  match profile with
  | Some text => Normal text
  | None =>
      let* listing := viaAggregator domain urlObj in
      match listing with
      | Some text => Normal text
      | None => Throw (ErrorObject "No API available for this site")
      end
  end.

End StructuredApi.

(** What a probe answers: connected exactly when the request returns a
    status below 300. *)
Definition probeAnswer (head : completion Z) : bool :=
  match head with
  | Normal status => (status <? 300)%Z
  | Throw _ => false
  end.

(** Every entry of the store has a TTL from 300 to 3600 seconds. *)
Definition ttlsInRange (cache : Cache) : Prop :=
  Forall (fun stored => (300 <= ttl (snd stored) <= 3600)%Z) cache.

(** ** The signals of the scorer *)

(** The four classes of main-content length the scorer tells apart. *)
Inductive LengthClass : Type := UpTo50 | Over50 | Over200 | Over500.

Definition lengthClass (n : nat) : LengthClass :=
  if (500 <? n)%nat then Over500
  else if (200 <? n)%nat then Over200
  else if (50 <? n)%nat then Over50
  else UpTo50.

Definition classRank (c : LengthClass) : nat :=
  match c with
  | UpTo50 => 0
  | Over50 => 1
  | Over200 => 2
  | Over500 => 3
  end.

(** The score as calculateConfidence adds it up, from the five signals. *)
Definition scoreOfSignals
  (structured titled described : bool) (c : LengthClass) (profile : bool) : float :=
  let score := 0%float in
  let score := if structured then (score + 0.3)%float else score in
  let score := if titled then (score + 0.2)%float else score in
  let score := if described then (score + 0.1)%float else score in
  let score :=
    match c with
    | Over500 => (score + 0.3)%float
    | Over200 => (score + 0.2)%float
    | Over50 => (score + 0.1)%float
    | UpTo50 => score
    end in
  let score := if profile then (score + 0.1)%float else score in
  Math_min score 1%float.

(** The three things every call keeps true of the store. *)
Definition storeInvariant (cache : Cache) : Prop :=
  wellFormed cache /\ (JsMap.size cache <= cacheSizeLimit)%nat /\ ttlsInRange cache.

Definition firstChar (s : string) : option ascii :=
  match s with
  | EmptyString => None
  | String c _ => Some c
  end.

(** Content from which nothing was extracted. *)
Definition emptyContent (content : ExtractedContent) : Prop :=
  truthy (title (metaData content)) = false
  /\ truthy (description (metaData content)) = false
  /\ githubData content = None
  /\ mainContent content = []
  /\ jsonLd content = [].

(** ** API networks for the worked examples *)

Definition quietApi : ApiNetwork :=
  mkApiNetwork (fun _ => Throw OtherValue) (fun _ => Throw OtherValue)
               (fun _ => Throw OtherValue) false
               (Throw OtherValue) (fun _ => Throw OtherValue).

Definition brokenItems : ApiNetwork :=
  mkApiNetwork (fun _ => Throw OtherValue) (fun _ => Throw OtherValue)
               (fun _ => Throw OtherValue) false
               (Normal [1; 2; 3]%Z)
               (fun id => if (id =? 2)%Z
                          then Throw (ErrorObject "connect ETIMEDOUT")
                          else Normal (Some (mkStory "A story" 10 None None))).

Definition sampleUser : ApiUser :=
  mkApiUser (Some "Ada") None None None None 2 3 4.

Definition activityDown : ApiNetwork :=
  mkApiNetwork (fun _ => Normal sampleUser)
               (fun _ => Normal [mkApiRepo "engine" false None (Some "Rocq") 1 0])
               (fun _ => Throw (ErrorObject "Request failed with status code 403")) false
               (Throw OtherValue) (fun _ => Throw OtherValue).

Definition userMissing : ApiNetwork :=
  mkApiNetwork (fun _ => Throw (ErrorObject "Request failed with status code 404"))
               (fun _ => Normal []) (fun _ => Normal []) false
               (Throw OtherValue) (fun _ => Throw OtherValue).

(** * Properties *)

(** ** The definitions on small inputs *)

Example includes_api_segment :
  includes "/v1/api/items" "/api/" = true /\ includes "/v1/api" "/api/" = false.
Proof. split; reflexivity. Qed.

Example replaceFirst_www :
  replaceFirst "www.x.com" "www." "" = "x.com"
  /\ replaceFirst "x.com" "www." "" = "x.com".
Proof. split; reflexivity. Qed.

Example toFixed0_percent :
  toFixed0 (0.6 * 100)%float = "60" /\ toFixed0 (0.58 * 100)%float = "58".
Proof. split; reflexivity. Qed.

Example splitCount_words : splitCount "one two  three" = 3%nat.
Proof. reflexivity. Qed.

(** A no-break space separates words as a space does. *)
Example splitCount_no_break_space :
  splitCount ("one" ++ String (ascii_of_nat 160) "two") = 2%nat
  /\ splitCount ("one" ++ String (ascii_of_nat 133) "two") = 1%nat.
Proof. split; reflexivity. Qed.

(** Blocks come out by score, the higher first, then by length, the longer
    first; a block of fewer than 50 characters is not scored. *)
Example densityFallback_order :
  densityFallback
    (mkDocument (fun _ => mkHit 0 "" [])
       [ mkCandidate "This is a sentence with more than ten words in it. Yes it is." 0;
         mkCandidate ("one two three four five six seven eight nine ten eleven twelve"
                        ++ " thirteen fourteen fifteen sixteen") 0;
         mkCandidate ("This is a longer sentence with more than ten words in it."
                        ++ " Yes it really is, friend.") 0;
         mkCandidate "short text." 0 ])
  = [ "This is a longer sentence with more than ten words in it."
        ++ " Yes it really is, friend.";
      "This is a sentence with more than ten words in it. Yes it is.";
      "one two three four five six seven eight nine ten eleven twelve"
        ++ " thirteen fourteen fifteen sixteen" ].
Proof. reflexivity. Qed.

(** A first visit to an address off every list, with little on the page: the
    text is returned under the plain label and stored under host and path. *)
Example scrapeWebsite_low_confidence :
  scrapeWebsite plainURL noType noApi pageLoads "example.org/a?b=1" 100 101 []
  = (Normal ("Scraped content from https://example.org/a?b=1:" ++ nl
               ++ bar ++ nl ++ "Title: Profile"),
     [("example.org/a", mkEntry "Title: Profile" 101 3600)]).
Proof. reflexivity. Qed.

(** ** Strings *)

Lemma string_length_app (s t : string) :
  String.length (s ++ t) = (String.length s + String.length t)%nat.
Proof.
  induction s as [|c s IH]; simpl; [reflexivity | now rewrite IH].
Qed.

Lemma prepend_changes (p s : string) : p <> "" -> p ++ s <> s.
Proof.
  intros Hp Heq.
  apply (f_equal String.length) in Heq. rewrite string_length_app in Heq.
  destruct p as [|c p]; [now apply Hp | simpl in Heq; lia].
Qed.

Lemma prefix_app_l (p q s : string) :
  prefix (p ++ q) s = true -> prefix p s = true.
Proof.
  revert s. induction p as [|a p IH]; intros s H; [now destruct s|].
  destruct s as [|b s]; simpl in *; [discriminate|].
  destruct (ascii_dec a b); [now apply IH | discriminate].
Qed.

(** ** Addresses *)

Lemma normalizeUrl_starts_with_http (url : string) :
  startsWith (normalizeUrl url) "http" = true.
Proof.
  unfold normalizeUrl.
  destruct (startsWith url "http") eqn:E; [exact E | reflexivity].
Qed.

(** X1: normalizing an address twice gives what normalizing it once gives. *)
Lemma normalizeUrl_idempotent (url : string) :
  normalizeUrl (normalizeUrl url) = normalizeUrl url.
Proof.
  unfold normalizeUrl at 1. now rewrite normalizeUrl_starts_with_http.
Qed.

(** C4, as amended: normalization prefixes [https://] exactly when the
    address does not begin with the four characters [http], and leaves the
    address unchanged exactly when it does (so every address with an [http]
    or [https] scheme is unchanged). *)
Theorem normalizeUrl_prefixes_unless_http (url : string) :
  (normalizeUrl url = "https://" ++ url <-> startsWith url "http" = false)
  /\ (normalizeUrl url = url <-> startsWith url "http" = true)
  /\ (startsWith url "http://" = true \/ startsWith url "https://" = true ->
      normalizeUrl url = url).
Proof.
  assert (Hne : "https://" ++ url <> url) by (apply prepend_changes; discriminate).
  assert (Hhttp : startsWith url "http://" = true \/ startsWith url "https://" = true ->
                  startsWith url "http" = true).
  { unfold startsWith. intros [H|H].
    - now apply (prefix_app_l "http" "://").
    - now apply (prefix_app_l "http" "s://"). }
  unfold normalizeUrl.
  destruct (startsWith url "http") eqn:E.
  - split; [|split].
    + split; intros H; [symmetry in H; contradiction | discriminate].
    + split; reflexivity.
    + reflexivity.
  - split; [|split].
    + split; reflexivity.
    + split; intros H; [contradiction | discriminate].
    + intros H. apply Hhttp in H. discriminate.
Qed.

Lemma normalizeUrl_prefixes_witness :
  normalizeUrl "example.com" = "https://example.com"
  /\ normalizeUrl "http://example.com" = "http://example.com".
Proof.
  split.
  - apply (normalizeUrl_prefixes_unless_http "example.com"). reflexivity.
  - apply (normalizeUrl_prefixes_unless_http "http://example.com"). left. reflexivity.
Defined.

(** C4, as stated, fails both ways: an address with the scheme [ftp] gets a
    second scheme in front, and a host name that begins with [http] and has no
    scheme gets none. *)
Lemma normalizeUrl_scheme_counterexample :
  hasScheme "ftp://example.com" = true
  /\ normalizeUrl "ftp://example.com" = "https://ftp://example.com"
  /\ hasScheme "httpbin.org" = false
  /\ normalizeUrl "httpbin.org" = "httpbin.org".
Proof. repeat split. Qed.

Section AddressFacts.

Variable newURL : string -> completion URL.

Lemma getCacheKey_parsed (url : string) (urlObj : URL) :
  newURL url = Normal urlObj ->
  getCacheKey newURL url =
    Normal (if includes (pathname urlObj) "/api/" then url
            else hostname urlObj ++ pathname urlObj).
Proof.
  intros H. unfold getCacheKey. rewrite H. simpl.
  now destruct (includes (pathname urlObj) "/api/").
Qed.

Lemma getCacheKey_unparsed (url : string) (e : Thrown) :
  newURL url = Throw e -> getCacheKey newURL url = Normal url.
Proof. intros H. unfold getCacheKey. now rewrite H. Qed.

(** Key derivation never throws. *)
Lemma getCacheKey_total (url : string) :
  exists key, getCacheKey newURL url = Normal key.
Proof.
  destruct (newURL url) as [urlObj|e] eqn:E.
  - rewrite (getCacheKey_parsed url urlObj E). now eexists.
  - exists url. now apply getCacheKey_unparsed with e.
Qed.

Lemma getCacheTTL_parsed (url : string) (urlObj : URL) :
  newURL url = Normal urlObj -> getCacheTTL newURL url = Normal (ttlPolicy urlObj).
Proof.
  intros H. unfold getCacheTTL, getCacheTTL_try, ttlPolicy. rewrite H. simpl.
  destruct (includes (pathname urlObj) "/feed" || includes (pathname urlObj) "/timeline");
    [reflexivity|].
  destruct (includes (hostname urlObj) "github.com"); [reflexivity|].
  now destruct (includes (hostname urlObj) "news" || includes (hostname urlObj) "reddit").
Qed.

Lemma getCacheTTL_unparsed (url : string) (e : Thrown) :
  newURL url = Throw e -> getCacheTTL newURL url = Normal 3600%Z.
Proof. intros H. unfold getCacheTTL, getCacheTTL_try. now rewrite H. Qed.

Lemma getCacheTTL_total (url : string) :
  exists t, getCacheTTL newURL url = Normal t.
Proof.
  destruct (newURL url) as [urlObj|e] eqn:E.
  - rewrite (getCacheTTL_parsed url urlObj E). now eexists.
  - rewrite (getCacheTTL_unparsed url e E). now eexists.
Qed.

End AddressFacts.

(** C3: two addresses that parse to the same host name and path get the same
    key, the host name followed by the path, unless the path contains
    [/api/]; then each address is its own key, so two such addresses that
    differ at all (in the query, say) get different keys. *)
Theorem getCacheKey_collapses_same_host_and_path
  (newURL : string -> completion URL) (url1 url2 : string) (parsed1 parsed2 : URL) :
  newURL url1 = Normal parsed1 ->
  newURL url2 = Normal parsed2 ->
  hostname parsed1 = hostname parsed2 ->
  pathname parsed1 = pathname parsed2 ->
  if includes (pathname parsed1) "/api/"
  then getCacheKey newURL url1 = Normal url1
       /\ getCacheKey newURL url2 = Normal url2
       /\ (url1 <> url2 -> getCacheKey newURL url1 <> getCacheKey newURL url2)
  else getCacheKey newURL url1 = Normal (hostname parsed1 ++ pathname parsed1)
       /\ getCacheKey newURL url2 = getCacheKey newURL url1.
Proof.
  intros H1 H2 Hhost Hpath.
  rewrite (getCacheKey_parsed newURL url1 parsed1 H1).
  rewrite (getCacheKey_parsed newURL url2 parsed2 H2).
  rewrite <- Hhost, <- Hpath.
  destruct (includes (pathname parsed1) "/api/").
  - repeat split. intros Hne Heq. apply Hne. now injection Heq.
  - now split.
Qed.

Lemma getCacheKey_collapses_witness :
  (getCacheKey plainURL "https://example.com/docs/intro?utm_source=a"
   = Normal "example.com/docs/intro"
   /\ getCacheKey plainURL "https://example.com/docs/intro?utm_source=b#top"
      = getCacheKey plainURL "https://example.com/docs/intro?utm_source=a")
  /\ (getCacheKey plainURL "https://example.com/v1/api/items?page=1"
      = Normal "https://example.com/v1/api/items?page=1"
      /\ getCacheKey plainURL "https://example.com/v1/api/items?page=2"
         = Normal "https://example.com/v1/api/items?page=2"
      /\ ("https://example.com/v1/api/items?page=1"
          <> "https://example.com/v1/api/items?page=2" ->
          getCacheKey plainURL "https://example.com/v1/api/items?page=1"
          <> getCacheKey plainURL "https://example.com/v1/api/items?page=2")).
Proof.
  split.
  - exact (getCacheKey_collapses_same_host_and_path plainURL
             "https://example.com/docs/intro?utm_source=a"
             "https://example.com/docs/intro?utm_source=b#top"
             (mkURL "example.com" "/docs/intro") (mkURL "example.com" "/docs/intro")
             eq_refl eq_refl eq_refl eq_refl).
  - exact (getCacheKey_collapses_same_host_and_path plainURL
             "https://example.com/v1/api/items?page=1"
             "https://example.com/v1/api/items?page=2"
             (mkURL "example.com" "/v1/api/items") (mkURL "example.com" "/v1/api/items")
             eq_refl eq_refl eq_refl eq_refl).
Defined.

(** C5, as amended: on an address that parses, the TTL is 300 when the path
    contains [/feed] or [/timeline]; otherwise 1800 when the host name
    contains [github.com]; otherwise 600 when the host name contains [news]
    or [reddit]; otherwise 3600. *)
Theorem getCacheTTL_priority
  (newURL : string -> completion URL) (url : string) (urlObj : URL) :
  newURL url = Normal urlObj ->
  (includes (pathname urlObj) "/feed" = true
   \/ includes (pathname urlObj) "/timeline" = true ->
   getCacheTTL newURL url = Normal 300%Z)
  /\ (includes (pathname urlObj) "/feed" = false ->
      includes (pathname urlObj) "/timeline" = false ->
      (includes (hostname urlObj) "github.com" = true ->
       getCacheTTL newURL url = Normal 1800%Z)
      /\ (includes (hostname urlObj) "github.com" = false ->
          (includes (hostname urlObj) "news" = true
           \/ includes (hostname urlObj) "reddit" = true ->
           getCacheTTL newURL url = Normal 600%Z)
          /\ (includes (hostname urlObj) "news" = false ->
              includes (hostname urlObj) "reddit" = false ->
              getCacheTTL newURL url = Normal 3600%Z))).
Proof.
  intros H. rewrite (getCacheTTL_parsed newURL url urlObj H). unfold ttlPolicy.
  split.
  - intros [E|E]; rewrite E; [reflexivity | now rewrite orb_true_r].
  - intros E1 E2. rewrite E1, E2. simpl. split.
    + intros E3. now rewrite E3.
    + intros E3. rewrite E3. split.
      * intros [E|E]; rewrite E; [reflexivity | now rewrite orb_true_r].
      * intros E4 E5. now rewrite E4, E5.
Qed.

Lemma getCacheTTL_priority_witness :
  getCacheTTL plainURL "https://github.com/torvalds/feed" = Normal 300%Z
  /\ getCacheTTL plainURL "https://gist.github.com/torvalds" = Normal 1800%Z
  /\ getCacheTTL plainURL "https://www.reddit.com/r/coq" = Normal 600%Z
  /\ getCacheTTL plainURL "https://example.com/about" = Normal 3600%Z.
Proof.
  split; [|split; [|split]].
  - apply (getCacheTTL_priority plainURL "https://github.com/torvalds/feed"
             (mkURL "github.com" "/torvalds/feed") eq_refl).
    left. reflexivity.
  - apply (getCacheTTL_priority plainURL "https://gist.github.com/torvalds"
             (mkURL "gist.github.com" "/torvalds") eq_refl); reflexivity.
  - apply (getCacheTTL_priority plainURL "https://www.reddit.com/r/coq"
             (mkURL "www.reddit.com" "/r/coq") eq_refl); try reflexivity.
    right. reflexivity.
  - apply (getCacheTTL_priority plainURL "https://example.com/about"
             (mkURL "example.com" "/about") eq_refl); reflexivity.
Defined.

(** C5, as stated, fails: a path that contains [feed] but not [/feed] gets
    the default TTL, not 300. *)
Lemma getCacheTTL_feed_counterexample :
  plainURL "https://example.com/newsfeed" = Normal (mkURL "example.com" "/newsfeed")
  /\ includes "/newsfeed" "feed" = true
  /\ getCacheTTL plainURL "https://example.com/newsfeed" = Normal 3600%Z.
Proof. repeat split. Qed.

(** C9: on a string the parser rejects, the key is the string itself and the
    TTL is 3600; and on every string both operations return. *)
Theorem getCacheKey_getCacheTTL_total
  (newURL : string -> completion URL) (url : string) :
  (exists key, getCacheKey newURL url = Normal key)
  /\ (exists seconds, getCacheTTL newURL url = Normal seconds)
  /\ (forall e, newURL url = Throw e ->
      getCacheKey newURL url = Normal url
      /\ getCacheTTL newURL url = Normal 3600%Z).
Proof.
  split; [apply getCacheKey_total | split; [apply getCacheTTL_total|]].
  intros e H. split.
  - now apply getCacheKey_unparsed with e.
  - now apply getCacheTTL_unparsed with e.
Qed.

Lemma getCacheKey_getCacheTTL_total_witness :
  plainURL "not a url" = Throw (ErrorObject "Invalid URL")
  /\ getCacheKey plainURL "not a url" = Normal "not a url"
  /\ getCacheTTL plainURL "not a url" = Normal 3600%Z.
Proof.
  split; [reflexivity|].
  exact (proj2 (proj2 (getCacheKey_getCacheTTL_total plainURL "not a url"))
           (ErrorObject "Invalid URL") eq_refl).
Defined.

(** ** The confidence scorer *)

Lemma join_nil (sep : string) : join sep [] = "".
Proof. reflexivity. Qed.

(** Splits the score into its cases: which signals are present, and which
    length class the main content falls in. *)
Ltac confidence_cases content :=
  unfold calculateConfidence, cappedSum, increments, lengthIncrement,
    exactScore, exactTenths, hasProfileId;
  destruct (jsonLd content) as [|? ?];
  destruct (truthy (title (metaData content)));
  destruct (truthy (description (metaData content)));
  (destruct (mainContent content) as [|first others];
   [ rewrite ?join_nil
   | generalize (String.length (join "" (first :: others))); intros total;
     destruct (500 <? total)%nat;
     [ | destruct (200 <? total)%nat; [ | destruct (50 <? total)%nat ] ] ]);
  (destruct (githubData content) as [g|];
   [ destruct (nonEmpty (username g)) | ]).

(** C8: the score is the sum of the increments that apply, taken in order in
    binary64 arithmetic and capped at 1; it lies between 0 and 1; and it is
    within 1e-15 of the same sum taken in exact tenths. *)
Theorem calculateConfidence_is_capped_sum (content : ExtractedContent) :
  calculateConfidence content = cappedSum (increments content)
  /\ (0 <=? calculateConfidence content)%float = true
  /\ (calculateConfidence content <=? 1)%float = true
  /\ (Qabs (float_to_Q (calculateConfidence content) - exactScore content)
      <= 1 # 1000000000000000)%Q.
Proof.
  confidence_cases content;
    (split; [vm_compute; reflexivity
            | split; [vm_compute; reflexivity
                     | split; [vm_compute; reflexivity
                              | vm_compute; discriminate]]]).
Qed.

(** The orchestrator's comparisons with one half come out as they would on
    the exact tenths. *)
Lemma calculateConfidence_above_half (content : ExtractedContent) :
  (0.5 <? calculateConfidence content)%float = (5 <? exactTenths content)%Z.
Proof. confidence_cases content; vm_compute; reflexivity. Qed.

Lemma calculateConfidence_at_most_half (content : ExtractedContent) :
  (calculateConfidence content <=? 0.5)%float = (exactTenths content <=? 5)%Z.
Proof. confidence_cases content; vm_compute; reflexivity. Qed.

Lemma calculateConfidence_threshold (content : ExtractedContent) :
  (calculateConfidence content <=? 0.5)%float = true ->
  (0.5 <? calculateConfidence content)%float = false.
Proof.
  rewrite calculateConfidence_at_most_half, calculateConfidence_above_half.
  intros H. apply Z.leb_le in H. apply Z.ltb_ge. exact H.
Qed.

(** ** The formatter and the extractor *)

Lemma firstn_firstn_same {A : Type} (n : nat) (l : list A) :
  firstn n (firstn n l) = firstn n l.
Proof. rewrite firstn_firstn. now rewrite Nat.min_id. Qed.

Lemma nonempty_firstn {A : Type} (n : nat) (l : list A) :
  (0 <? List.length (firstn (S n) l))%nat = (0 <? List.length l)%nat.
Proof. now destruct l. Qed.

Section FormatFacts.

Variable jsonLdType : string -> option string.

(** The parts are: what the metadata and the profile give, then the
    main-content section, then the structured-data section. *)
Lemma formatParts_sections (content : ExtractedContent) :
  formatParts jsonLdType content =
    (formatParts jsonLdType (withJsonLd (withMainContent content []) [])
     ++ match mainContent content with
        | [] => []
        | _ :: _ => (nl ++ "Main Content:")%string :: firstn 5 (mainContent content)
        end
     ++ match jsonLd content with
        | [] => []
        | _ :: _ => (nl ++ "Structured Data Found:")%string
                      :: structuredSummary jsonLdType (jsonLd content)
        end)%list.
Proof.
  unfold formatParts, withJsonLd, withMainContent, push, pushAll. simpl.
  set (base := match githubData content with Some _ => _ | None => _ end).
  destruct (mainContent content) as [|b bs]; destruct (jsonLd content) as [|j js];
    simpl; rewrite ?app_nil_r, <- ?app_assoc; reflexivity.
Qed.

Lemma formatParts_first_five (content : ExtractedContent) :
  formatParts jsonLdType (withMainContent content (firstn 5 (mainContent content)))
  = formatParts jsonLdType content.
Proof.
  rewrite (formatParts_sections content).
  rewrite (formatParts_sections (withMainContent content _)).
  cbn [mainContent jsonLd withMainContent withJsonLd].
  rewrite firstn_firstn_same.
  now destruct (mainContent content).
Qed.

End FormatFacts.

Lemma densityFallback_at_most_ten (doc : Document) :
  (List.length (densityFallback doc) <= 10)%nat.
Proof.
  unfold densityFallback. rewrite length_map. apply firstn_le_length.
Qed.

Lemma selectorCascade_some (doc : Document) (selectors paragraphs : list string) :
  selectorCascade doc selectors = Some paragraphs ->
  exists selector,
    In selector selectors
    /\ (100 < String.length (hit_text (query doc selector)))%nat
    /\ paragraphs = filter (fun t => (20 <? String.length t)%nat)
                           (hit_parts (query doc selector)).
Proof.
  induction selectors as [|selector rest IH]; simpl; [discriminate|].
  destruct ((0 <? matched (query doc selector))%nat
            && (100 <? String.length (hit_text (query doc selector)))%nat) eqn:E.
  - intros H. injection H as <-. exists selector.
    apply andb_true_iff in E as [_ E]. apply Nat.ltb_lt in E. auto.
  - intros H. destruct (IH H) as (found & Hin & Hrest). exists found. auto.
Qed.

(** The loop stops at the first selector that qualifies: every selector
    before it matched nothing or a text of at most 100 characters; and when
    it runs to the end no selector qualifies. *)
Lemma selectorCascade_first (doc : Document) (selectors : list string) :
  match selectorCascade doc selectors with
  | Some paragraphs =>
      exists before selector after,
        selectors = (before ++ selector :: after)%list
        /\ Forall (fun s => matched (query doc s) = 0%nat
                            \/ (String.length (hit_text (query doc s)) <= 100)%nat)
                  before
        /\ (0 < matched (query doc selector))%nat
        /\ (100 < String.length (hit_text (query doc selector)))%nat
        /\ paragraphs = filter (fun t => (20 <? String.length t)%nat)
                               (hit_parts (query doc selector))
  | None =>
      Forall (fun s => matched (query doc s) = 0%nat
                       \/ (String.length (hit_text (query doc s)) <= 100)%nat)
             selectors
  end.
Proof.
  induction selectors as [|selector rest IH]; simpl; [constructor|].
  destruct ((0 <? matched (query doc selector))%nat
            && (100 <? String.length (hit_text (query doc selector)))%nat) eqn:E.
  - apply andb_true_iff in E as [Hmatched Hlong].
    apply Nat.ltb_lt in Hmatched. apply Nat.ltb_lt in Hlong.
    exists [], selector, rest. repeat split; auto.
  - assert (Hnot : matched (query doc selector) = 0%nat
                   \/ (String.length (hit_text (query doc selector)) <= 100)%nat).
    { apply andb_false_iff in E as [E|E]; apply Nat.ltb_ge in E; [left | right]; lia. }
    destruct (selectorCascade doc rest) as [paragraphs|].
    + destruct IH as (before & found & after & -> & Hbefore & Hfound).
      exists (selector :: before), found, after.
      split; [reflexivity | split; [now constructor | exact Hfound]].
    + now constructor.
Qed.

(** C10, as amended: of the main-content blocks only the first five reach the
    formatted text (the parts are the metadata and profile lines, then the
    heading and the first five blocks when there is any block, then the
    structured-data lines, and blocks after the fifth change nothing).  The
    extractor goes through the content selectors in their order; at the first
    one that matches an element whose text is longer than 100 characters (all
    before it having matched nothing, or a text of at most 100 characters) it
    returns every paragraph, heading and list item of it that is longer than
    20 characters, however many; and when no selector qualifies it falls back
    to density scoring and keeps at most ten blocks. *)
Theorem formatContent_keeps_first_five_blocks
  (jsonLdType : string -> option string) (content : ExtractedContent) (doc : Document) :
  formatParts jsonLdType content =
    (formatParts jsonLdType (withJsonLd (withMainContent content []) [])
     ++ match mainContent content with
        | [] => []
        | _ :: _ => (nl ++ "Main Content:")%string :: firstn 5 (mainContent content)
        end
     ++ match jsonLd content with
        | [] => []
        | _ :: _ => (nl ++ "Structured Data Found:")%string
                      :: structuredSummary jsonLdType (jsonLd content)
        end)%list
  /\ (List.length (firstn 5 (mainContent content)) <= 5)%nat
  /\ formatContent jsonLdType content =
       formatContent jsonLdType
         (withMainContent content (firstn 5 (mainContent content)))
  /\ ((exists before selector after,
         [ "main"; "article"; "[role=" ++ dquote ++ "main" ++ dquote ++ "]";
           "#content"; ".content"; ".markdown-body"; ".post-content";
           ".entry-content"; ".article-body"; ".story-body";
           "div[itemprop=" ++ dquote ++ "articleBody" ++ dquote ++ "]" ]
         = (before ++ selector :: after)%list
         /\ Forall (fun s => matched (query doc s) = 0%nat
                             \/ (String.length (hit_text (query doc s)) <= 100)%nat)
                   before
         /\ (0 < matched (query doc selector))%nat
         /\ (100 < String.length (hit_text (query doc selector)))%nat
         /\ extractMainContent doc
            = filter (fun t => (20 <? String.length t)%nat)
                     (hit_parts (query doc selector)))
      \/ (Forall (fun s => matched (query doc s) = 0%nat
                           \/ (String.length (hit_text (query doc s)) <= 100)%nat)
                 [ "main"; "article"; "[role=" ++ dquote ++ "main" ++ dquote ++ "]";
                   "#content"; ".content"; ".markdown-body"; ".post-content";
                   ".entry-content"; ".article-body"; ".story-body";
                   "div[itemprop=" ++ dquote ++ "articleBody" ++ dquote ++ "]" ]
          /\ extractMainContent doc = densityFallback doc
          /\ (List.length (extractMainContent doc) <= 10)%nat)).
Proof.
  split; [apply formatParts_sections|].
  split; [apply firstn_le_length|].
  split; [unfold formatContent; now rewrite formatParts_first_five|].
  pose proof (selectorCascade_first doc contentSelectors) as Hfirst.
  unfold extractMainContent.
  destruct (selectorCascade doc contentSelectors) as [paragraphs|] eqn:E.
  - left. destruct Hfirst as (before & selector & after & Hsplit & Hbefore & H0 & H100 & ->).
    exists before, selector, after.
    split; [exact Hsplit | split; [exact Hbefore | split; [exact H0 | split; [exact H100|]]]].
    reflexivity.
  - right. split; [exact Hfirst | split; [reflexivity | apply densityFallback_at_most_ten]].
Qed.

(** C10, as stated, fails in its second half: from a page whose [main]
    element qualifies, the extractor keeps all eleven paragraphs (and the
    formatter still shows five). *)
Lemma extractMainContent_eleven_counterexample :
  List.length (extractMainContent elevenParagraphs) = 11%nat
  /\ List.length
       (formatParts noType
          (mkContent [] (mkMetaData None None None None None)
                     (extractMainContent elevenParagraphs) None []))
     = 6%nat.
Proof. split; reflexivity. Qed.

(** The first selector that qualifies decides, not the first that matches
    and not a later one. *)
Example extractMainContent_first_qualifying :
  extractMainContent shortMainLongArticle = repeat "A paragraph of the article...." 4.
Proof. reflexivity. Qed.

(** ** Lists *)

Lemma in_firstn {A : Type} (n : nat) (l : list A) (x : A) :
  In x (firstn n l) -> In x l.
Proof.
  intros H. rewrite <- (firstn_skipn n l). apply in_or_app. now left.
Qed.

Lemma in_skipn {A : Type} (n : nat) (l : list A) (x : A) :
  In x (skipn n l) -> In x l.
Proof.
  intros H. rewrite <- (firstn_skipn n l). apply in_or_app. now right.
Qed.

Lemma NoDup_firstn {A : Type} (n : nat) (l : list A) :
  NoDup l -> NoDup (firstn n l).
Proof.
  intros H. rewrite <- (firstn_skipn n l) in H. now apply NoDup_app_remove_r in H.
Qed.

(** ** Sorting *)

Section SortingFacts.

Context {A : Type}.
Variable before : A -> A -> bool.

Lemma insertInto_perm (x : A) (l : list A) :
  Permutation (insertInto before x l) (x :: l).
Proof.
  induction l as [|y l IH]; simpl; [reflexivity|].
  destruct (before x y); [reflexivity|].
  rewrite IH. apply perm_swap.
Qed.

Lemma sortBy_perm (l : list A) : Permutation (sortBy before l) l.
Proof.
  induction l as [|x l IH]; simpl; [reflexivity|].
  rewrite insertInto_perm. now apply perm_skip.
Qed.

Lemma sortBy_length (l : list A) : List.length (sortBy before l) = List.length l.
Proof. apply Permutation_length, sortBy_perm. Qed.

Hypothesis before_total : forall a b, before a b = false -> before b a = true.
Hypothesis before_trans :
  forall a b c, before a b = true -> before b c = true -> before a c = true.

Let ordered (a b : A) : Prop := before a b = true.

Lemma insertInto_sorted (x : A) (l : list A) :
  StronglySorted ordered l -> StronglySorted ordered (insertInto before x l).
Proof.
  induction 1 as [|y l Hl IH Hy]; simpl.
  - repeat constructor.
  - destruct (before x y) eqn:E.
    + constructor; [now constructor|].
      constructor; [exact E|].
      eapply Forall_impl; [|exact Hy]. intros z Hz. now apply before_trans with y.
    + constructor; [exact IH|].
      apply Forall_forall. intros z Hz.
      apply (Permutation_in _ (insertInto_perm x l)) in Hz.
      destruct Hz as [<-|Hz]; [now apply before_total|].
      rewrite Forall_forall in Hy. now apply Hy.
Qed.

Lemma sortBy_sorted (l : list A) : StronglySorted ordered (sortBy before l).
Proof.
  induction l as [|x l IH]; simpl; [constructor | now apply insertInto_sorted].
Qed.

(** In a sorted array, whatever stands before a cut is not after whatever
    stands behind it. *)
Lemma sorted_cut (n : nat) (l : list A) (a b : A) :
  StronglySorted ordered l ->
  In a (firstn n l) -> In b (skipn n l) -> before a b = true.
Proof.
  intros Hl. revert n. induction Hl as [|x l Hl IH Hx]; intros n Ha Hb.
  - now destruct n.
  - destruct n as [|n]; [contradiction|]. simpl in Ha, Hb.
    destruct Ha as [->|Ha].
    + rewrite Forall_forall in Hx. apply Hx. now apply in_skipn with n.
    + now apply IH with n.
Qed.

End SortingFacts.

(** ** The cache store *)

Lemma get_set_same (key : string) (value : CacheEntry) (m : Cache) :
  JsMap.get key (JsMap.set key value m) = Some value.
Proof.
  induction m as [|[k v] rest IH]; simpl.
  - now rewrite String.eqb_refl.
  - destruct (k =? key) eqn:E; simpl; rewrite E; [reflexivity | exact IH].
Qed.

Lemma get_set_other (key other : string) (value : CacheEntry) (m : Cache) :
  other <> key -> JsMap.get other (JsMap.set key value m) = JsMap.get other m.
Proof.
  intros Hne. induction m as [|[k v] rest IH]; simpl.
  - apply String.eqb_neq in Hne. rewrite String.eqb_sym in Hne. now rewrite Hne.
  - destruct (k =? key) eqn:E; simpl.
    + apply String.eqb_eq in E. subst k.
      assert ((key =? other) = false) as -> by (apply String.eqb_neq; congruence).
      reflexivity.
    + destruct (k =? other); [reflexivity | exact IH].
Qed.

Lemma size_set_le (key : string) (value : CacheEntry) (m : Cache) :
  (JsMap.size (JsMap.set key value m) <= S (JsMap.size m))%nat.
Proof.
  unfold JsMap.size. induction m as [|[k v] rest IH]; simpl; [lia|].
  destruct (k =? key); simpl; lia.
Qed.

Lemma keys_set (key : string) (value : CacheEntry) (m : Cache) (k : string) :
  In k (JsMap.keys (JsMap.set key value m)) -> k = key \/ In k (JsMap.keys m).
Proof.
  unfold JsMap.keys. induction m as [|[k0 v0] rest IH]; simpl.
  - intros [<-|[]]. now left.
  - destruct (k0 =? key); simpl; intros [<-|H]; auto.
    destruct (IH H); auto.
Qed.

Lemma wellFormed_set (key : string) (value : CacheEntry) (m : Cache) :
  wellFormed m -> wellFormed (JsMap.set key value m).
Proof.
  unfold wellFormed. induction m as [|[k v] rest IH]; simpl; intros H.
  - repeat constructor. intros [].
  - inversion H as [|? ? Hk Hrest]; subst.
    destruct (k =? key) eqn:E; simpl; [now constructor|].
    constructor; [|now apply IH].
    intros Hin. apply keys_set in Hin. destruct Hin as [->|Hin]; [|contradiction].
    now rewrite String.eqb_refl in E.
Qed.

Lemma keys_delete (key : string) (m : Cache) (k : string) :
  In k (JsMap.keys (JsMap.delete key m)) -> In k (JsMap.keys m).
Proof.
  unfold JsMap.keys. induction m as [|[k0 v0] rest IH]; simpl; [easy|].
  destruct (k0 =? key); simpl; [now right|].
  intros [<-|H]; [now left | right; now apply IH].
Qed.

Lemma wellFormed_delete (key : string) (m : Cache) :
  wellFormed m -> wellFormed (JsMap.delete key m).
Proof.
  unfold wellFormed. induction m as [|[k v] rest IH]; simpl; intros H; [exact H|].
  inversion H as [|? ? Hk Hrest]; subst.
  destruct (k =? key); simpl; [exact Hrest|].
  constructor; [|now apply IH].
  intros Hin. apply Hk. now apply keys_delete with key.
Qed.

(** Deleting the key of a stored entry takes out that entry and nothing else. *)
Lemma delete_perm (entry : string * CacheEntry) (m : Cache) :
  wellFormed m -> In entry m ->
  Permutation m (entry :: JsMap.delete (fst entry) m).
Proof.
  unfold wellFormed. induction m as [|[k v] rest IH]; simpl; intros Hm Hin; [easy|].
  inversion Hm as [|? ? Hk Hrest]; subst.
  destruct (k =? fst entry) eqn:E.
  - apply String.eqb_eq in E.
    destruct Hin as [<-|Hin]; [reflexivity|].
    exfalso. apply Hk. rewrite E. unfold JsMap.keys. now apply in_map.
  - destruct Hin as [<-|Hin]; [simpl in E; now rewrite String.eqb_refl in E|].
    rewrite (IH Hrest Hin) at 1. apply perm_swap.
Qed.

Lemma delete_keeps (key : string) (entry : string * CacheEntry) (m : Cache) :
  In entry m -> fst entry <> key -> In entry (JsMap.delete key m).
Proof.
  intros Hin Hne. induction m as [|[k v] rest IH]; simpl; [easy|].
  destruct Hin as [<-|Hin].
  - simpl in Hne. apply String.eqb_neq in Hne. rewrite Hne. now left.
  - destruct (k =? key); [exact Hin | right; now apply IH].
Qed.

(** Deleting the keys of stored entries, no key twice, takes out exactly
    those entries. *)
Lemma delete_all_perm (gone : list (string * CacheEntry)) (m : Cache) :
  wellFormed m -> NoDup (map fst gone) -> incl gone m ->
  let left := fold_left (fun m entry => JsMap.delete (fst entry) m) gone m in
  Permutation m (gone ++ left) /\ wellFormed left.
Proof.
  revert m. induction gone as [|entry gone IH]; intros m Hm Hnd Hin; simpl.
  - now split.
  - inversion Hnd as [|? ? Hfresh Hnd']; subst.
    assert (Hentry : In entry m) by (apply Hin; now left).
    destruct (IH (JsMap.delete (fst entry) m)) as [Hperm Hwf].
    + now apply wellFormed_delete.
    + exact Hnd'.
    + intros x Hx. apply delete_keeps; [apply Hin; now right|].
      intros Heq. apply Hfresh. rewrite <- Heq. now apply in_map.
    + split; [|exact Hwf].
      rewrite (delete_perm entry m Hm Hentry) at 1. now apply perm_skip.
Qed.

(** ** updateCache *)

Lemma oldestFirst_iff (a b : string * CacheEntry) :
  oldestFirst a b = true <-> (timestamp (snd a) <= timestamp (snd b))%Q.
Proof.
  unfold oldestFirst. rewrite Qle_bool_iff. split; intros H; lra.
Qed.

Lemma oldestFirst_total (a b : string * CacheEntry) :
  oldestFirst a b = false -> oldestFirst b a = true.
Proof.
  intros H. apply oldestFirst_iff.
  destruct (Qlt_le_dec (timestamp (snd a)) (timestamp (snd b))) as [Hlt|Hle];
    [|exact Hle].
  assert (oldestFirst a b = true) by (apply oldestFirst_iff; lra). congruence.
Qed.

Lemma oldestFirst_trans (a b c : string * CacheEntry) :
  oldestFirst a b = true -> oldestFirst b c = true -> oldestFirst a c = true.
Proof. rewrite !oldestFirst_iff. intros; lra. Qed.

Lemma toRemove_is_five : toRemove = 5%nat.
Proof. vm_compute. reflexivity. Qed.

Lemma skipn_nth_error {A : Type} (i : nat) (l : list A) (x : A) :
  nth_error l i = Some x -> skipn i l = x :: skipn (S i) l.
Proof.
  revert l. induction i as [|i IH]; intros [|y l] H; try discriminate.
  - now injection H as ->.
  - simpl in H. now apply IH.
Qed.

(** The eviction loop stays within the array when the array is long enough,
    and then deletes the keys it walks over, in turn. *)
Lemma evictLoop_run (sorted : list (string * CacheEntry)) (n i : nat) (cache : Cache) :
  (i + n <= List.length sorted)%nat ->
  evictLoop sorted n i cache =
    (Normal tt,
     fold_left (fun m entry => JsMap.delete (fst entry) m)
               (firstn n (skipn i sorted)) cache).
Proof.
  revert i cache. induction n as [|n IH]; intros i cache Hlen; [reflexivity|].
  destruct (nth_error sorted i) as [[key value]|] eqn:E.
  - rewrite (skipn_nth_error i sorted _ E). simpl. rewrite E.
    unfold bind, writes. rewrite IH by lia. reflexivity.
  - apply nth_error_None in E. lia.
Qed.

(** updateCache never throws; it evicts when the store is full and then
    sets the entry. *)
Lemma updateCache_run (key text : string) (seconds : Z) (now : Q) (cache : Cache) :
  updateCache key text seconds now cache =
    (Normal tt,
     JsMap.set key (mkEntry text now seconds)
       (if (cacheSizeLimit <=? JsMap.size cache)%nat then evictOldest cache
        else cache)).
Proof.
  unfold updateCache, bind, reads, writes, ret.
  destruct (cacheSizeLimit <=? JsMap.size cache)%nat eqn:E; [|reflexivity].
  rewrite evictLoop_run; [reflexivity|].
  rewrite sortBy_length, toRemove_is_five.
  apply Nat.leb_le in E. unfold cacheSizeLimit, JsMap.size, JsMap.entries in *. lia.
Qed.

Lemma updateCache_after (key text : string) (seconds : Z) (now : Q) (cache : Cache) :
  JsMap.set key (mkEntry text now seconds)
    (if (cacheSizeLimit <=? JsMap.size cache)%nat then evictOldest cache else cache)
  = snd (updateCache key text seconds now cache).
Proof. now rewrite updateCache_run. Qed.

(** What the eviction takes out of a well-formed store: the first
    [toRemove] entries of the store sorted by time of storage. *)
Lemma evictOldest_spec (cache : Cache) :
  wellFormed cache ->
  let evicted := firstn toRemove (sortBy oldestFirst (JsMap.entries cache)) in
  Permutation cache (evicted ++ evictOldest cache)
  /\ wellFormed (evictOldest cache)
  /\ (forall a b, In a evicted -> In b (evictOldest cache) ->
      (timestamp (snd a) <= timestamp (snd b))%Q).
Proof.
  intros Hwf evicted.
  pose proof (sortBy_perm oldestFirst (JsMap.entries cache)) as Hsort.
  unfold JsMap.entries in *.
  assert (Hnd : NoDup (map fst evicted)).
  { unfold evicted. rewrite <- firstn_map. apply NoDup_firstn.
    apply (Permutation_NoDup (l := map fst cache)); [|exact Hwf].
    apply Permutation_map. now symmetry. }
  assert (Hincl : incl evicted cache).
  { intros x Hx. apply (Permutation_in _ Hsort). now apply in_firstn with toRemove. }
  destruct (delete_all_perm evicted cache Hwf Hnd Hincl) as [Hperm Hleft].
  fold (evictOldest cache) in Hperm, Hleft.
  split; [exact Hperm | split; [exact Hleft|]].
  intros a b Ha Hb. apply oldestFirst_iff.
  apply (sorted_cut oldestFirst toRemove (sortBy oldestFirst cache)).
  - apply sortBy_sorted; [apply oldestFirst_total | apply oldestFirst_trans].
  - exact Ha.
  - assert (Hrest : Permutation (evictOldest cache)
                                (skipn toRemove (sortBy oldestFirst cache))).
    { apply (Permutation_app_inv_l evicted).
      transitivity cache; [symmetry; exact Hperm|].
      unfold evicted. rewrite firstn_skipn. now symmetry. }
    now apply (Permutation_in _ Hrest).
Qed.

Lemma evictOldest_size (cache : Cache) :
  wellFormed cache -> (toRemove <= JsMap.size cache)%nat ->
  (JsMap.size (evictOldest cache) + toRemove = JsMap.size cache)%nat.
Proof.
  intros Hwf Hsize. destruct (evictOldest_spec cache Hwf) as (Hperm & _ & _).
  apply Permutation_length in Hperm. rewrite length_app, firstn_length_le in Hperm.
  - unfold JsMap.size. lia.
  - rewrite sortBy_length. exact Hsize.
Qed.

Lemma runPut_invariant (cache : Cache) (p : Put) :
  wellFormed cache /\ (JsMap.size cache <= cacheSizeLimit)%nat ->
  wellFormed (runPut cache p) /\ (JsMap.size (runPut cache p) <= cacheSizeLimit)%nat.
Proof.
  intros [Hwf Hsize]. unfold runPut. rewrite updateCache_run. cbn [snd].
  destruct (cacheSizeLimit <=? JsMap.size cache)%nat eqn:E.
  - apply Nat.leb_le in E.
    destruct (evictOldest_spec cache Hwf) as (_ & Hleft & _).
    split; [now apply wellFormed_set|].
    pose proof (size_set_le (put_key p)
                  (mkEntry (put_content p) (put_now p) (put_ttl p)) (evictOldest cache)).
    pose proof (evictOldest_size cache Hwf) as Hev.
    rewrite toRemove_is_five in Hev. unfold cacheSizeLimit in *. lia.
  - apply Nat.leb_gt in E. split; [now apply wellFormed_set|].
    pose proof (size_set_le (put_key p)
                  (mkEntry (put_content p) (put_now p) (put_ttl p)) cache).
    lia.
Qed.

Lemma runPuts_invariant (puts : list Put) :
  wellFormed (runPuts puts) /\ (JsMap.size (runPuts puts) <= cacheSizeLimit)%nat.
Proof.
  unfold runPuts.
  assert (H : forall start,
             wellFormed start /\ (JsMap.size start <= cacheSizeLimit)%nat ->
             wellFormed (fold_left runPut puts start)
             /\ (JsMap.size (fold_left runPut puts start) <= cacheSizeLimit)%nat).
  { induction puts as [|p puts IH]; intros start Hstart; [exact Hstart|].
    simpl. apply IH. now apply runPut_invariant. }
  apply H. split; [constructor | unfold JsMap.size, cacheSizeLimit; simpl; lia].
Qed.

(** One call on a well-formed store within its capacity. *)
Lemma updateCache_step (cache : Cache) (key text : string) (seconds : Z) (now : Q) :
  wellFormed cache -> (JsMap.size cache <= cacheSizeLimit)%nat ->
  let entry := mkEntry text now seconds in
  let after := snd (updateCache key text seconds now cache) in
  fst (updateCache key text seconds now cache) = Normal tt
  /\ (JsMap.size after <= cacheSizeLimit)%nat
  /\ JsMap.get key after = Some entry
  /\ ((cacheSizeLimit <= JsMap.size cache)%nat ->
      exists evicted kept,
        evicted = firstn toRemove (sortBy oldestFirst (JsMap.entries cache))
        /\ List.length evicted = 5%nat
        /\ Permutation cache (evicted ++ kept)
        /\ (forall a b, In a evicted -> In b kept ->
            (timestamp (snd a) <= timestamp (snd b))%Q)
        /\ after = JsMap.set key entry kept)
  /\ ((JsMap.size cache < cacheSizeLimit)%nat -> after = JsMap.set key entry cache).
Proof.
  intros Hwf Hsize entry after.
  pose proof (runPut_invariant cache (mkPut key text seconds now) (conj Hwf Hsize))
    as [_ Hafter].
  unfold runPut in Hafter. cbn [put_key put_content put_ttl put_now] in Hafter.
  fold after in Hafter. subst after.
  rewrite updateCache_run in *. cbn [fst snd] in *. fold entry in Hafter |- *.
  split; [reflexivity | split; [exact Hafter | split; [apply get_set_same|]]].
  split.
  - intros Hfull. apply Nat.leb_le in Hfull as Hb. rewrite Hb.
    destruct (evictOldest_spec cache Hwf) as (Hperm & _ & Hmin).
    exists (firstn toRemove (sortBy oldestFirst (JsMap.entries cache))),
      (evictOldest cache).
    split; [reflexivity|]. split; [|split; [exact Hperm | split; [exact Hmin | reflexivity]]].
    rewrite firstn_length_le; [apply toRemove_is_five|].
    rewrite sortBy_length, toRemove_is_five.
    unfold cacheSizeLimit, JsMap.size, JsMap.entries in *. lia.
  - intros Hroom. apply Nat.leb_gt in Hroom. now rewrite Hroom.
Qed.

(** C1: after every sequence of calls of updateCache on the empty store, one
    more call returns, leaves at most 50 entries and leaves the new entry
    under its key; when it starts on 50 entries, 5 of them are deleted first,
    none of them stored later than any entry that stays, and the new entry is
    set into what stays. *)
Theorem updateCache_keeps_capacity
  (puts : list Put) (key text : string) (seconds : Z) (now : Q) :
  let cache := runPuts puts in
  let entry := mkEntry text now seconds in
  let after := snd (updateCache key text seconds now cache) in
  fst (updateCache key text seconds now cache) = Normal tt
  /\ Math_ceil (50 * 0.1)%float = 5%Z
  /\ (JsMap.size cache <= 50)%nat
  /\ (JsMap.size after <= 50)%nat
  /\ JsMap.get key after = Some entry
  /\ ((50 <= JsMap.size cache)%nat ->
      exists evicted kept,
        evicted = firstn toRemove (sortBy oldestFirst (JsMap.entries cache))
        /\ List.length evicted = 5%nat
        /\ Permutation cache (evicted ++ kept)
        /\ (forall a b, In a evicted -> In b kept ->
            (timestamp (snd a) <= timestamp (snd b))%Q)
        /\ after = JsMap.set key entry kept)
  /\ ((JsMap.size cache < 50)%nat -> after = JsMap.set key entry cache).
Proof.
  intros cache entry after.
  destruct (runPuts_invariant puts) as [Hwf Hsize]. fold cache in Hwf, Hsize.
  destruct (updateCache_step cache key text seconds now Hwf Hsize)
    as (Hret & Hcap & Hget & Hfull & Hroom).
  split; [exact Hret | split; [vm_compute; reflexivity | split; [exact Hsize|]]].
  split; [exact Hcap | split; [exact Hget | split; [exact Hfull | exact Hroom]]].
Qed.

(** The full store of the example, one call later: the entries of seconds 0
    to 4 are the five that go. *)
Lemma updateCache_keeps_capacity_witness :
  exists evicted kept,
    evicted = firstn toRemove (sortBy oldestFirst (JsMap.entries (runPuts fiftyPuts)))
    /\ List.length evicted = 5%nat
    /\ Permutation (runPuts fiftyPuts) (evicted ++ kept)
    /\ (forall a b, In a evicted -> In b kept ->
        (timestamp (snd a) <= timestamp (snd b))%Q)
    /\ snd (updateCache "page50" "text" 3600 50 (runPuts fiftyPuts))
       = JsMap.set "page50" (mkEntry "text" 50 3600) kept.
Proof.
  apply (proj1 (proj2 (proj2 (proj2 (proj2 (proj2
           (updateCache_keeps_capacity fiftyPuts "page50" "text" 3600 50))))))).
  vm_compute. apply le_n.
Defined.

Example full_store_then_one_more :
  JsMap.size (runPuts fiftyPuts) = 50%nat
  /\ map fst (firstn toRemove (sortBy oldestFirst (runPuts fiftyPuts)))
     = ["page0"; "page1"; "page2"; "page3"; "page4"]
  /\ JsMap.size (snd (updateCache "page50" "text" 3600 50 (runPuts fiftyPuts))) = 46%nat
  /\ JsMap.get "page4" (snd (updateCache "page50" "text" 3600 50 (runPuts fiftyPuts)))
     = None
  /\ JsMap.get "page5" (snd (updateCache "page50" "text" 3600 50 (runPuts fiftyPuts)))
     = Some (mkEntry "text" 5 3600).
Proof. vm_compute. repeat split. Qed.

(** ** Retrieval *)

Lemma isFresh_iff (now : Q) (entry : CacheEntry) :
  isFresh now entry = true <-> (now - timestamp entry < inject_Z (ttl entry))%Q.
Proof.
  unfold isFresh. rewrite negb_true_iff.
  destruct (Qle_bool (inject_Z (ttl entry)) (now - timestamp entry)) eqn:E.
  - apply Qle_bool_iff in E. split; [discriminate | intros H; lra].
  - split; [intros _ | reflexivity].
    destruct (Qlt_le_dec (now - timestamp entry) (inject_Z (ttl entry))) as [H|H];
      [exact H|].
    apply Qle_bool_iff in H. congruence.
Qed.

Lemma isFresh_false_iff (now : Q) (entry : CacheEntry) :
  isFresh now entry = false <-> (inject_Z (ttl entry) <= now - timestamp entry)%Q.
Proof.
  unfold isFresh. rewrite negb_false_iff. apply Qle_bool_iff.
Qed.

(** A dynamic-site domain is on neither of the other two lists. *)
Lemma dynamic_domain_only_dynamic (domain : string) :
  arrayIncludes dynamic domain = true ->
  inApi domain = false /\ arrayIncludes basic domain = false.
Proof.
  unfold arrayIncludes, dynamic. simpl. intros H.
  repeat (apply orb_true_iff in H; destruct H as [H|H]);
    try discriminate; apply String.eqb_eq in H; subst domain; split; reflexivity.
Qed.

Section RetrievalFacts.

Variable newURL : string -> completion URL.
Variable jsonLdType : string -> option string.
Variable scrapeViaAPI : string -> completion string.
Variable fetchPage : string -> completion Page.

Let attempt := scrapeWebsite_try newURL jsonLdType scrapeViaAPI fetchPage.
Let run := scrapeWebsite newURL jsonLdType scrapeViaAPI fetchPage.
Let scrape := enhancedBasicScrape newURL jsonLdType fetchPage.

Lemma scrapeWebsite_unfold
  (url : string) (now writeTime : Q) (cache : Cache) (key : string) :
  getCacheKey newURL (normalizeUrl url) = Normal key ->
  run url now writeTime cache =
    match JsMap.get key cache with
    | Some entry =>
        if isFresh now entry
        then (Normal ("Cached content from " ++ normalizeUrl url ++ ":" ++ nl
                        ++ bar ++ nl ++ content entry), cache)
        else tryM (attempt (normalizeUrl url) key writeTime)
                  (scrapeWebsite_catch (normalizeUrl url) key) cache
    | None => tryM (attempt (normalizeUrl url) key writeTime)
                   (scrapeWebsite_catch (normalizeUrl url) key) cache
    end.
Proof.
  intros Hkey. unfold run, scrapeWebsite, bind, lift, reads, ret. rewrite Hkey.
  destruct (JsMap.get key cache) as [entry|]; [|reflexivity].
  now destruct (isFresh now entry).
Qed.

(** The catch block reads the cache and writes nothing. *)
Lemma scrapeWebsite_catch_run
  (normalizedUrl key : string) (error : Thrown) (cache : Cache) :
  scrapeWebsite_catch normalizedUrl key error cache =
    (Normal
       match JsMap.get key cache with
       | Some entry =>
           if includes (errorMessageOf error) "ETIMEDOUT"
           then "Cached content from " ++ normalizedUrl ++ " (network timeout):" ++ nl
                  ++ bar ++ nl ++ content entry
           else "Error scraping " ++ normalizedUrl ++ ": " ++ errorMessageOf error
       | None => "Error scraping " ++ normalizedUrl ++ ": " ++ errorMessageOf error
       end, cache).
Proof.
  unfold scrapeWebsite_catch, bind, reads, ret.
  destruct (JsMap.get key cache) as [entry|]; [|reflexivity].
  now destruct (includes (errorMessageOf error) "ETIMEDOUT").
Qed.

(** The try block either throws with the cache as it was, or returns after
    exactly one call of updateCache under the key. *)
Lemma scrapeWebsite_try_cases
  (normalizedUrl key : string) (writeTime : Q) (cache : Cache) :
  (exists error, attempt normalizedUrl key writeTime cache = (Throw error, cache))
  \/ (exists response text seconds,
        attempt normalizedUrl key writeTime cache =
          (Normal response, snd (updateCache key text seconds writeTime cache))).
Proof.
  unfold attempt, scrapeWebsite_try, bind, lift, tryM, ret.
  destruct (newURL normalizedUrl) as [urlObj|error] eqn:Hurl; [|left; now eexists].
  destruct (getCacheTTL_total newURL normalizedUrl) as [seconds Httl].
  rewrite Httl.
  assert (Hscrape :
    (exists error, scrape normalizedUrl = Throw error)
    \/ (exists text confidence, scrape normalizedUrl = Normal (text, confidence))).
  { destruct (scrape normalizedUrl) as [[text confidence]|error];
      [right | left]; repeat eexists. }
  fold scrape.
  destruct (inApi (replaceFirst (hostname urlObj) "www." "")).
  - destruct (scrapeViaAPI normalizedUrl) as [apiContent|apiError].
    + right. rewrite updateCache_run, updateCache_after. repeat eexists.
    + destruct Hscrape as [[error ->]|(text & confidence & ->)];
        [left; now eexists | right].
      destruct ((0.5 <? confidence)%float
                || arrayIncludes basic (replaceFirst (hostname urlObj) "www." ""));
        [|destruct (arrayIncludes dynamic (replaceFirst (hostname urlObj) "www." ""))];
        rewrite updateCache_run, updateCache_after; repeat eexists.
  - destruct Hscrape as [[error ->]|(text & confidence & ->)];
      [left; now eexists | right].
    destruct ((0.5 <? confidence)%float
              || arrayIncludes basic (replaceFirst (hostname urlObj) "www." ""));
      [|destruct (arrayIncludes dynamic (replaceFirst (hostname urlObj) "www." ""))];
      rewrite updateCache_run, updateCache_after; repeat eexists.
Qed.

(** When the address does not parse, or the API tier is skipped or fails and
    the page request throws, the try block throws that error and has written
    nothing. *)
Lemma scrapeWebsite_try_throws
  (normalizedUrl key : string) (writeTime : Q) (cache : Cache) (error : Thrown) :
  (newURL normalizedUrl = Throw error
   \/ exists urlObj,
        newURL normalizedUrl = Normal urlObj
        /\ (inApi (replaceFirst (hostname urlObj) "www." "") = false
            \/ exists apiError, scrapeViaAPI normalizedUrl = Throw apiError)
        /\ fetchPage normalizedUrl = Throw error) ->
  attempt normalizedUrl key writeTime cache = (Throw error, cache).
Proof.
  unfold attempt, scrapeWebsite_try, bind, lift, tryM, ret.
  intros [Hurl|(urlObj & Hurl & Hapi & Hfetch)]; rewrite Hurl; [reflexivity|].
  assert (Hscrape : enhancedBasicScrape newURL jsonLdType fetchPage normalizedUrl
                    = Throw error).
  { unfold enhancedBasicScrape. now rewrite Hfetch. }
  rewrite Hscrape.
  destruct Hapi as [->|[apiError ->]]; [reflexivity|].
  now destruct (inApi (replaceFirst (hostname urlObj) "www." "")).
Qed.

(** What enhancedBasicScrape returns is the formatted text and the score of
    one and the same extracted content. *)
Lemma enhancedBasicScrape_result (url text : string) (confidence : float) :
  scrape url = Normal (text, confidence) ->
  exists content,
    text = formatContent jsonLdType content
    /\ confidence = calculateConfidence content.
Proof.
  unfold scrape, enhancedBasicScrape.
  destruct (fetchPage url) as [page|]; [|discriminate].
  destruct (newURL url) as [urlObj|]; [|discriminate].
  cbv beta iota delta [and_then]. intros H. injection H as <- <-.
  eexists. split; reflexivity.
Qed.

End RetrievalFacts.

(** X2: scrapeWebsite returns on every input: whatever the parser, the API
    and the page request do, the caller gets a text and no exception. *)
Lemma scrapeWebsite_never_throws
  (newURL : string -> completion URL) (jsonLdType : string -> option string)
  (scrapeViaAPI : string -> completion string) (fetchPage : string -> completion Page)
  (url : string) (now writeTime : Q) (cache : Cache) :
  exists response,
    fst (scrapeWebsite newURL jsonLdType scrapeViaAPI fetchPage url now writeTime cache)
    = Normal response.
Proof.
  destruct (getCacheKey_total newURL (normalizeUrl url)) as [key Hkey].
  rewrite (scrapeWebsite_unfold _ _ _ _ url now writeTime cache key Hkey).
  assert (Hretrieve : exists response,
    fst (tryM (scrapeWebsite_try newURL jsonLdType scrapeViaAPI fetchPage
                 (normalizeUrl url) key writeTime)
              (scrapeWebsite_catch (normalizeUrl url) key) cache) = Normal response).
  { unfold tryM.
    destruct (scrapeWebsite_try_cases newURL jsonLdType scrapeViaAPI fetchPage
                (normalizeUrl url) key writeTime cache)
      as [[error ->]|(response & text & seconds & ->)].
    - rewrite scrapeWebsite_catch_run. now eexists.
    - now eexists. }
  destruct (JsMap.get key cache) as [entry|]; [|exact Hretrieve].
  destruct (isFresh now entry); [now eexists | exact Hretrieve].
Qed.

(** C6, as amended: when no fresh entry answers and the retrieval fails (the
    address does not parse, or the API tier is skipped or fails and the page
    request throws), scrapeWebsite returns, with the cache as it was.  When
    what was thrown is an [Error] whose message contains the text [ETIMEDOUT]
    and an entry is stored under the key, however old, the result is that
    entry's content under the network-timeout label.  In every other case it
    is the text [Error scraping], the address, and the message of the error,
    or [Unknown error] for a thrown value that is not an [Error]. *)
Theorem scrapeWebsite_failure_is_rendered
  (newURL : string -> completion URL) (jsonLdType : string -> option string)
  (scrapeViaAPI : string -> completion string) (fetchPage : string -> completion Page)
  (url : string) (now writeTime : Q) (cache : Cache) (key : string) (error : Thrown) :
  let normalizedUrl := normalizeUrl url in
  getCacheKey newURL normalizedUrl = Normal key ->
  (forall entry, JsMap.get key cache = Some entry -> isFresh now entry = false) ->
  (newURL normalizedUrl = Throw error
   \/ exists urlObj,
        newURL normalizedUrl = Normal urlObj
        /\ (inApi (replaceFirst (hostname urlObj) "www." "") = false
            \/ exists apiError, scrapeViaAPI normalizedUrl = Throw apiError)
        /\ fetchPage normalizedUrl = Throw error) ->
  scrapeWebsite newURL jsonLdType scrapeViaAPI fetchPage url now writeTime cache =
    (Normal
       match error with
       | ErrorObject message =>
           match JsMap.get key cache with
           | Some entry =>
               if includes message "ETIMEDOUT"
               then "Cached content from " ++ normalizedUrl ++ " (network timeout):"
                      ++ nl ++ "==============================" ++ nl
                      ++ content entry
               else "Error scraping " ++ normalizedUrl ++ ": " ++ message
           | None => "Error scraping " ++ normalizedUrl ++ ": " ++ message
           end
       | OtherValue => "Error scraping " ++ normalizedUrl ++ ": Unknown error"
       end, cache).
Proof.
  intros normalizedUrl Hkey Hstale Hfails.
  rewrite (scrapeWebsite_unfold _ _ _ _ url now writeTime cache key Hkey).
  fold normalizedUrl.
  assert (Hretrieve :
    tryM (scrapeWebsite_try newURL jsonLdType scrapeViaAPI fetchPage
            normalizedUrl key writeTime)
         (scrapeWebsite_catch normalizedUrl key) cache
    = scrapeWebsite_catch normalizedUrl key error cache).
  { unfold tryM.
    now rewrite (scrapeWebsite_try_throws _ _ _ _ normalizedUrl key writeTime cache
                   error Hfails). }
  rewrite Hretrieve.
  unfold scrapeWebsite_catch, bind, reads, ret.
  change bar with "==============================".
  destruct (JsMap.get key cache) as [entry|] eqn:E.
  - rewrite (Hstale entry eq_refl).
    destruct error as [message|]; cbn [errorMessageOf].
    + now destruct (includes message "ETIMEDOUT").
    + reflexivity.
  - now destruct error.
Qed.

(** An entry two hours old with a TTL of one hour.  The connection times out:
    the old text comes back.  The server answers 404, or what is thrown is
    not an [Error]: the text names the error.  The store is as it was each
    time. *)
Lemma scrapeWebsite_failure_witness :
  scrapeWebsite plainURL noType noApi connectionTimesOut "example.com" 7200 7200 oneEntry
  = (Normal ("Cached content from https://example.com (network timeout):" ++ nl
               ++ "==============================" ++ nl ++ "stored text"), oneEntry)
  /\ scrapeWebsite plainURL noType noApi pageNotFound "example.com" 7200 7200 oneEntry
     = (Normal "Error scraping https://example.com: Request failed with status code 404",
        oneEntry)
  /\ scrapeWebsite plainURL noType noApi throwsOtherValue "example.com" 7200 7200 oneEntry
     = (Normal "Error scraping https://example.com: Unknown error", oneEntry)
  /\ scrapeWebsite plainURL noType noApi connectionTimesOut "example.org" 7200 7200 oneEntry
     = (Normal "Error scraping https://example.org: connect ETIMEDOUT 93.184.216.34:443",
        oneEntry).
Proof.
  split; [|split; [|split]].
  - refine (scrapeWebsite_failure_is_rendered plainURL noType noApi connectionTimesOut
              "example.com" 7200 7200 oneEntry "example.com/"
              (ErrorObject "connect ETIMEDOUT 93.184.216.34:443") eq_refl _ _).
    + intros entry H. injection H as <-. reflexivity.
    + right. exists (mkURL "example.com" "/").
      split; [reflexivity | split; [left; reflexivity | reflexivity]].
  - refine (scrapeWebsite_failure_is_rendered plainURL noType noApi pageNotFound
              "example.com" 7200 7200 oneEntry "example.com/"
              (ErrorObject "Request failed with status code 404") eq_refl _ _).
    + intros entry H. injection H as <-. reflexivity.
    + right. exists (mkURL "example.com" "/").
      split; [reflexivity | split; [left; reflexivity | reflexivity]].
  - refine (scrapeWebsite_failure_is_rendered plainURL noType noApi throwsOtherValue
              "example.com" 7200 7200 oneEntry "example.com/"
              OtherValue eq_refl _ _).
    + intros entry H. injection H as <-. reflexivity.
    + right. exists (mkURL "example.com" "/").
      split; [reflexivity | split; [left; reflexivity | reflexivity]].
  - refine (scrapeWebsite_failure_is_rendered plainURL noType noApi connectionTimesOut
              "example.org" 7200 7200 oneEntry "example.org/"
              (ErrorObject "connect ETIMEDOUT 93.184.216.34:443") eq_refl _ _).
    + intros entry H. discriminate H.
    + right. exists (mkURL "example.org" "/").
      split; [reflexivity | split; [left; reflexivity | reflexivity]].
Defined.

(** C6, as stated, fails: the page request's own timer fires after ten
    seconds, the message says so, an entry is stored under the key, and the
    result is the error text, not the stored content. *)
Lemma scrapeWebsite_request_timeout_counterexample :
  requestTimesOut "https://example.com"
  = Throw (ErrorObject "timeout of 10000ms exceeded")
  /\ includes "timeout of 10000ms exceeded" "timeout" = true
  /\ includes "timeout of 10000ms exceeded" "ETIMEDOUT" = false
  /\ JsMap.get "example.com/" oneEntry = Some (mkEntry "stored text" 0 3600)
  /\ scrapeWebsite plainURL noType noApi requestTimesOut "example.com" 7200 7200 oneEntry
     = (Normal "Error scraping https://example.com: timeout of 10000ms exceeded",
        oneEntry).
Proof. repeat split. Qed.

(** C7: on a miss, for an address whose domain is on the dynamic list, when
    the page was scraped with a confidence of at most 0.5, the response is
    the scraped text with the caveat appended under the dynamic-site label,
    and that text is written to the cache under the key with the smaller of
    the address's TTL and 600 seconds.  The caveat is two line feeds, the
    mark as the source file has it, and the sentences [Note: This site loads
    content dynamically. Some information may be missing.] *)
Theorem scrapeWebsite_dynamic_site
  (newURL : string -> completion URL) (jsonLdType : string -> option string)
  (scrapeViaAPI : string -> completion string) (fetchPage : string -> completion Page)
  (url : string) (now writeTime : Q) (cache : Cache)
  (key : string) (urlObj : URL) (text : string) (confidence : float) (seconds : Z) :
  let normalizedUrl := normalizeUrl url in
  let result :=
    scrapeWebsite newURL jsonLdType scrapeViaAPI fetchPage url now writeTime cache in
  let contentWithWarning :=
    text ++ nl ++ nl
         ++ bytes [195; 162; 197; 161; 194; 160; 195; 175; 194; 184]%nat
         ++ " Note: This site loads content dynamically. Some information may be missing."
  in
  getCacheKey newURL normalizedUrl = Normal key ->
  (forall entry, JsMap.get key cache = Some entry -> isFresh now entry = false) ->
  newURL normalizedUrl = Normal urlObj ->
  arrayIncludes dynamic (replaceFirst (hostname urlObj) "www." "") = true ->
  enhancedBasicScrape newURL jsonLdType fetchPage normalizedUrl
  = Normal (text, confidence) ->
  (confidence <=? 0.5)%float = true ->
  getCacheTTL newURL normalizedUrl = Normal seconds ->
  fst result = Normal ("Scraped content from " ++ normalizedUrl ++ " (dynamic site):"
                         ++ nl ++ "==============================" ++ nl
                         ++ contentWithWarning)
  /\ snd result
     = snd (updateCache key contentWithWarning (Z.min seconds 600) writeTime cache)
  /\ JsMap.get key (snd result)
     = Some (mkEntry contentWithWarning writeTime (Z.min seconds 600))
  /\ (Z.min seconds 600 <= 600)%Z
  /\ (Z.min seconds 600 <= seconds)%Z.
Proof.
  intros normalizedUrl result contentWithWarning
         Hkey Hstale Hurl Hdynamic Hscrape Hlow Httl.
  assert (Hcaveat : contentWithWarning = text ++ warning) by reflexivity.
  clearbody contentWithWarning. subst contentWithWarning.
  destruct (dynamic_domain_only_dynamic _ Hdynamic) as [HnoApi HnoBasic].
  destruct (enhancedBasicScrape_result _ _ _ _ _ _ Hscrape) as (extracted & _ & ->).
  apply calculateConfidence_threshold in Hlow.
  assert (Hresult :
    result = (Normal ("Scraped content from " ++ normalizedUrl ++ " (dynamic site):"
                        ++ nl ++ bar ++ nl ++ text ++ warning),
              snd (updateCache key (text ++ warning) (Z.min seconds 600)
                     writeTime cache))).
  { unfold result.
    rewrite (scrapeWebsite_unfold _ _ _ _ url now writeTime cache key Hkey).
    fold normalizedUrl.
    assert (Hretrieve :
      tryM (scrapeWebsite_try newURL jsonLdType scrapeViaAPI fetchPage
              normalizedUrl key writeTime)
           (scrapeWebsite_catch normalizedUrl key) cache
      = (Normal ("Scraped content from " ++ normalizedUrl ++ " (dynamic site):"
                   ++ nl ++ bar ++ nl ++ text ++ warning),
         snd (updateCache key (text ++ warning) (Z.min seconds 600)
                writeTime cache))).
    { unfold tryM, scrapeWebsite_try, bind, lift, ret.
      rewrite Hurl, HnoApi, Hscrape, Hlow, HnoBasic, Hdynamic, Httl.
      cbv beta iota delta [orb].
      rewrite updateCache_run. reflexivity. }
    destruct (JsMap.get key cache) as [entry|] eqn:E; [|exact Hretrieve].
    now rewrite (Hstale entry eq_refl). }
  rewrite Hresult. cbn [fst snd].
  split; [reflexivity | split; [reflexivity|]].
  split; [rewrite updateCache_run; apply get_set_same|].
  split; [apply Z.le_min_r | apply Z.le_min_l].
Qed.

(** A profile address on [x.com] whose page gives a title and nothing else:
    confidence 0.2, the default TTL of 3600 seconds cut to 600. *)
Lemma scrapeWebsite_dynamic_site_witness :
  let result := scrapeWebsite plainURL noType noApi pageLoads "x.com/rocq" 100 101 [] in
  let contentWithWarning :=
    "Title: Profile" ++ nl ++ nl
      ++ bytes [195; 162; 197; 161; 194; 160; 195; 175; 194; 184]%nat
      ++ " Note: This site loads content dynamically. Some information may be missing."
  in
  fst result = Normal ("Scraped content from https://x.com/rocq (dynamic site):"
                         ++ nl ++ "==============================" ++ nl
                         ++ contentWithWarning)
  /\ snd result = [("x.com/rocq", mkEntry contentWithWarning 101 600)]
  /\ JsMap.get "x.com/rocq" (snd result) = Some (mkEntry contentWithWarning 101 600)
  /\ (Z.min 3600 600 <= 600)%Z
  /\ (Z.min 3600 600 <= 3600)%Z.
Proof.
  refine (scrapeWebsite_dynamic_site plainURL noType noApi pageLoads
            "x.com/rocq" 100 101 [] "x.com/rocq" (mkURL "x.com" "/rocq")
            "Title: Profile" 0.2%float 3600 eq_refl _ eq_refl eq_refl eq_refl eq_refl
            eq_refl).
  intros entry H. discriminate H.
Defined.

(** C2: an entry stored under the key of the address is served exactly when
    the time since it was stored is less than its TTL: one second before the
    TTL runs out it is fresh, from then on it is not.  A fresh entry is
    returned as it is with the cache untouched; an entry that is not fresh
    sends the call on to retrieval, which leaves the cache as it was or
    makes one call of updateCache under the same key: nothing is deleted for
    being old. *)
Theorem scrapeWebsite_serves_fresh_entries
  (newURL : string -> completion URL) (jsonLdType : string -> option string)
  (scrapeViaAPI : string -> completion string) (fetchPage : string -> completion Page)
  (url : string) (now writeTime : Q) (cache : Cache) (key : string) (entry : CacheEntry) :
  let normalizedUrl := normalizeUrl url in
  let result :=
    scrapeWebsite newURL jsonLdType scrapeViaAPI fetchPage url now writeTime cache in
  let storedAt := timestamp entry in
  let T := inject_Z (ttl entry) in
  getCacheKey newURL normalizedUrl = Normal key ->
  JsMap.get key cache = Some entry ->
  (isFresh now entry = true <-> (now - storedAt < T)%Q)
  /\ isFresh (storedAt + T - 1) entry = true
  /\ (forall later, (storedAt + T <= later)%Q -> isFresh later entry = false)
  /\ ((now - storedAt < T)%Q ->
      result = (Normal ("Cached content from " ++ normalizedUrl ++ ":" ++ nl
                          ++ bar ++ nl ++ content entry), cache))
  /\ ((T <= now - storedAt)%Q ->
      result = tryM (scrapeWebsite_try newURL jsonLdType scrapeViaAPI fetchPage
                       normalizedUrl key writeTime)
                    (scrapeWebsite_catch normalizedUrl key) cache
      /\ (snd result = cache
          \/ exists text seconds,
               snd result = snd (updateCache key text seconds writeTime cache))).
Proof.
  intros normalizedUrl result storedAt T Hkey Hget.
  split; [apply isFresh_iff|].
  split; [apply isFresh_iff; fold storedAt T; lra|].
  split; [intros later H; apply isFresh_false_iff; fold storedAt T; lra|].
  unfold result.
  rewrite (scrapeWebsite_unfold _ _ _ _ url now writeTime cache key Hkey), Hget.
  fold normalizedUrl. split.
  - intros Hfresh. apply isFresh_iff in Hfresh. now rewrite Hfresh.
  - intros Hold. apply isFresh_false_iff in Hold. rewrite Hold.
    split; [reflexivity|]. unfold tryM.
    destruct (scrapeWebsite_try_cases newURL jsonLdType scrapeViaAPI fetchPage
                normalizedUrl key writeTime cache)
      as [[error ->]|(response & text & seconds & ->)].
    + left. now rewrite scrapeWebsite_catch_run.
    + right. now exists text, seconds.
Qed.

(** The entry of the example, stored at second 0 for 3600 seconds: read at
    second 3599 it is served from the cache; read at second 3600, with the
    network down, it is still in the store. *)
Lemma scrapeWebsite_serves_fresh_entries_witness :
  scrapeWebsite plainURL noType noApi connectionTimesOut "example.com" 3599 3599 oneEntry
  = (Normal ("Cached content from https://example.com:" ++ nl
               ++ bar ++ nl ++ "stored text"), oneEntry)
  /\ isFresh 3599 (mkEntry "stored text" 0 3600) = true
  /\ isFresh 3600 (mkEntry "stored text" 0 3600) = false
  /\ snd (scrapeWebsite plainURL noType noApi connectionTimesOut
            "example.com" 3600 3600 oneEntry) = oneEntry.
Proof.
  pose proof (scrapeWebsite_serves_fresh_entries plainURL noType noApi connectionTimesOut
                "example.com" 3599 3599 oneEntry "example.com/"
                (mkEntry "stored text" 0 3600) eq_refl eq_refl)
    as (_ & Hlast & Hlater & Hhit & _).
  split; [apply Hhit; reflexivity|].
  split; [exact Hlast|].
  split; [apply Hlater; discriminate | reflexivity].
Defined.

(** * Further properties *)

(** ** The connectivity prober *)

Lemma checkIsRecent_iff (now : Q) (last : ConnectivityCheck) :
  checkIsRecent now last = true <-> (now - checkedAt last < 60)%Q.
Proof.
  unfold checkIsRecent, connectivityTTL. rewrite negb_true_iff.
  destruct (Qle_bool (inject_Z 60) (now - checkedAt last)) eqn:E.
  - apply Qle_bool_iff in E. split; [discriminate|].
    intros H. exfalso. apply (Qlt_irrefl 60). eapply Qle_lt_trans; eassumption.
  - split; [intros _ | reflexivity].
    destruct (Qlt_le_dec (now - checkedAt last) 60) as [H|H]; [exact H|].
    apply Qle_bool_iff in H. unfold inject_Z in E. congruence.
Qed.



(** X4: a memoized check that is 60 seconds old or older is not used: the
    call asks the network and memoizes the new answer with the time of the
    call. *)
Theorem checkInternetConnection_expires
  (head : completion Z) (now : Q) (check : ConnectivityCheck) :
  (60 <= now - checkedAt check)%Q ->
  checkInternetConnection head now (Some check)
  = (Normal (probeAnswer head), Some (mkCheck (probeAnswer head) now)).
Proof.
  intros Hold. unfold checkInternetConnection.
  destruct (checkIsRecent now check) eqn:E.
  - apply checkIsRecent_iff in E.
    exfalso. apply (Qlt_irrefl 60). eapply Qle_lt_trans; eassumption.
  - now destruct head.
Qed.

Lemma checkInternetConnection_expires_witness :
  checkInternetConnection (Normal 204%Z) 160 (Some (mkCheck false 100))
  = (Normal true, Some (mkCheck true 160)).
Proof.
  apply (checkInternetConnection_expires (Normal 204%Z) 160 (mkCheck false 100)).
  discriminate.
Defined.

(** ** What a retrieval leaves in the store *)

Lemma ttlPolicy_range (urlObj : URL) : (300 <= ttlPolicy urlObj <= 3600)%Z.
Proof.
  unfold ttlPolicy.
  destruct (includes (pathname urlObj) "/feed" || includes (pathname urlObj) "/timeline");
    [lia|].
  destruct (includes (hostname urlObj) "github.com"); [lia|].
  destruct (includes (hostname urlObj) "news" || includes (hostname urlObj) "reddit"); lia.
Qed.

Lemma getCacheTTL_range (newURL : string -> completion URL) (url : string) :
  exists seconds,
    getCacheTTL newURL url = Normal seconds /\ (300 <= seconds <= 3600)%Z.
Proof.
  destruct (newURL url) as [urlObj|e] eqn:E.
  - exists (ttlPolicy urlObj). split; [now apply getCacheTTL_parsed | apply ttlPolicy_range].
  - exists 3600%Z. split; [now apply getCacheTTL_unparsed with e | lia].
Qed.

Lemma string_app_assoc (a b c : string) : (a ++ b) ++ c = a ++ b ++ c.
Proof. induction a as [|x a IH]; simpl; [reflexivity | now rewrite IH]. Qed.

Section RetrievalOutcome.

Variable newURL : string -> completion URL.
Variable jsonLdType : string -> option string.
Variable scrapeViaAPI : string -> completion string.
Variable fetchPage : string -> completion Page.

(** The try block on an address that parses, tier by tier, with each write
    to the cache spelled out. *)
Lemma scrapeWebsite_try_run
  (normalizedUrl key : string) (writeTime : Q) (cache : Cache)
  (urlObj : URL) (seconds : Z) :
  newURL normalizedUrl = Normal urlObj ->
  getCacheTTL newURL normalizedUrl = Normal seconds ->
  let domain := replaceFirst (hostname urlObj) "www." "" in
  let stored text ttl := snd (updateCache key text ttl writeTime cache) in
  scrapeWebsite_try newURL jsonLdType scrapeViaAPI fetchPage
    normalizedUrl key writeTime cache =
    match (if inApi domain
           then match scrapeViaAPI normalizedUrl with
                | Normal apiContent => Some apiContent
                | Throw _ => None
                end
           else None) with
    | Some apiContent =>
        (Normal ("API content from " ++ normalizedUrl ++ ":" ++ nl
                   ++ bar ++ nl ++ apiContent),
         stored apiContent seconds)
    | None =>
        match enhancedBasicScrape newURL jsonLdType fetchPage normalizedUrl with
        | Throw error => (Throw error, cache)
        | Normal (text, confidence) =>
            if (0.5 <? confidence)%float || arrayIncludes basic domain
            then (Normal ("Scraped content from " ++ normalizedUrl ++ " (confidence: "
                            ++ toFixed0 (confidence * 100)%float ++ "%):" ++ nl
                            ++ bar ++ nl ++ text),
                  stored text seconds)
            else if arrayIncludes dynamic domain
            then (Normal ("Scraped content from " ++ normalizedUrl
                            ++ " (dynamic site):" ++ nl ++ bar ++ nl
                            ++ text ++ warning),
                  stored (text ++ warning) (Z.min seconds 600))
            else (Normal ("Scraped content from " ++ normalizedUrl ++ ":" ++ nl
                            ++ bar ++ nl ++ text),
                  stored text seconds)
        end
    end.
Proof.
  intros Hurl Httl domain stored.
  unfold scrapeWebsite_try, bind, lift, tryM, ret. rewrite Hurl, Httl.
  fold domain. subst stored. cbv beta.
  destruct (inApi domain).
  - destruct (scrapeViaAPI normalizedUrl) as [apiContent|apiError].
    + now rewrite updateCache_run.
    + destruct (enhancedBasicScrape newURL jsonLdType fetchPage normalizedUrl)
        as [[text confidence]|error]; [|reflexivity].
      destruct ((0.5 <? confidence)%float || arrayIncludes basic domain);
        [|destruct (arrayIncludes dynamic domain)];
        now rewrite updateCache_run.
  - destruct (enhancedBasicScrape newURL jsonLdType fetchPage normalizedUrl)
      as [[text confidence]|error]; [|reflexivity].
    destruct ((0.5 <? confidence)%float || arrayIncludes basic domain);
      [|destruct (arrayIncludes dynamic domain)];
      now rewrite updateCache_run.
Qed.

(** The try block, when it returns: the response ends with the text it
    stored, under a TTL from 300 to 3600 seconds. *)
Lemma scrapeWebsite_try_stores
  (normalizedUrl key : string) (writeTime : Q) (cache : Cache) (response : string) :
  fst (scrapeWebsite_try newURL jsonLdType scrapeViaAPI fetchPage
         normalizedUrl key writeTime cache) = Normal response ->
  exists label text seconds,
    response = label ++ nl ++ bar ++ nl ++ text
    /\ (300 <= seconds <= 3600)%Z
    /\ snd (scrapeWebsite_try newURL jsonLdType scrapeViaAPI fetchPage
              normalizedUrl key writeTime cache)
       = snd (updateCache key text seconds writeTime cache).
Proof.
  destruct (newURL normalizedUrl) as [urlObj|error] eqn:Hurl.
  2:{ unfold scrapeWebsite_try, bind, lift. rewrite Hurl. discriminate. }
  destruct (getCacheTTL_range newURL normalizedUrl) as (seconds & Httl & Hrange).
  rewrite (scrapeWebsite_try_run normalizedUrl key writeTime cache urlObj seconds
             Hurl Httl).
  cbv zeta.
  destruct (if inApi (replaceFirst (hostname urlObj) "www." "")
            then match scrapeViaAPI normalizedUrl with
                 | Normal apiContent => Some apiContent
                 | Throw _ => None
                 end
            else None) as [apiContent|].
  - cbn [fst snd]. intros H. injection H as <-.
    exists ("API content from " ++ normalizedUrl ++ ":"), apiContent, seconds.
    rewrite !string_app_assoc. auto.
  - destruct (enhancedBasicScrape newURL jsonLdType fetchPage normalizedUrl)
      as [[text confidence]|error]; [|discriminate].
    destruct ((0.5 <? confidence)%float
              || arrayIncludes basic (replaceFirst (hostname urlObj) "www." ""));
      [|destruct (arrayIncludes dynamic (replaceFirst (hostname urlObj) "www." ""))];
      cbn [fst snd]; intros H; injection H as <-.
    + exists ("Scraped content from " ++ normalizedUrl ++ " (confidence: "
                ++ toFixed0 (confidence * 100)%float ++ "%):"), text, seconds.
      rewrite !string_app_assoc. auto.
    + exists ("Scraped content from " ++ normalizedUrl ++ " (dynamic site):"),
        (text ++ warning), (Z.min seconds 600).
      rewrite !string_app_assoc. split; [reflexivity | split; [lia | reflexivity]].
    + exists ("Scraped content from " ++ normalizedUrl ++ ":"), text, seconds.
      rewrite !string_app_assoc. auto.
Qed.

End RetrievalOutcome.

(** ** Calls of scrapeWebsite, one after another and side by side *)



(** X6: for an address that does not begin with the four characters [http],
    whether the caller writes the [https://] in front of it or leaves it out,
    the call does the same and answers the same. *)
Theorem scrapeWebsite_scheme_optional
  (newURL : string -> completion URL) (jsonLdType : string -> option string)
  (scrapeViaAPI : string -> completion string) (fetchPage : string -> completion Page)
  (address : string) (now writeTime : Q) (cache : Cache) :
  startsWith address "http" = false ->
  scrapeWebsite newURL jsonLdType scrapeViaAPI fetchPage
    ("https://" ++ address) now writeTime cache
  = scrapeWebsite newURL jsonLdType scrapeViaAPI fetchPage address now writeTime cache.
Proof.
  intros Hbare.
  assert (Hsame : normalizeUrl ("https://" ++ address) = normalizeUrl address).
  { unfold normalizeUrl. rewrite Hbare. reflexivity. }
  unfold scrapeWebsite. now rewrite Hsame.
Qed.

Lemma scrapeWebsite_scheme_optional_witness :
  scrapeWebsite plainURL noType noApi pageLoads ("https://" ++ "example.org/a") 100 101 []
  = scrapeWebsite plainURL noType noApi pageLoads "example.org/a" 100 101 [].
Proof.
  apply (scrapeWebsite_scheme_optional plainURL noType noApi pageLoads "example.org/a").
  reflexivity.
Defined.

(** X7: on a miss for an address whose domain is registered for the API,
    when the API gives a text the response is that text under the API label,
    the text is stored under the address's TTL, and the page is never asked
    for: the outcome is the same whatever the page request would give. *)
Theorem scrapeWebsite_api_tier
  (newURL : string -> completion URL) (jsonLdType : string -> option string)
  (scrapeViaAPI : string -> completion string) (fetchPage : string -> completion Page)
  (url : string) (now writeTime : Q) (cache : Cache)
  (key : string) (urlObj : URL) (apiContent : string) (seconds : Z) :
  let normalizedUrl := normalizeUrl url in
  getCacheKey newURL normalizedUrl = Normal key ->
  (forall entry, JsMap.get key cache = Some entry -> isFresh now entry = false) ->
  newURL normalizedUrl = Normal urlObj ->
  inApi (replaceFirst (hostname urlObj) "www." "") = true ->
  scrapeViaAPI normalizedUrl = Normal apiContent ->
  getCacheTTL newURL normalizedUrl = Normal seconds ->
  scrapeWebsite newURL jsonLdType scrapeViaAPI fetchPage url now writeTime cache
  = (Normal ("API content from " ++ normalizedUrl ++ ":" ++ nl
               ++ bar ++ nl ++ apiContent),
     snd (updateCache key apiContent seconds writeTime cache))
  /\ JsMap.get key (snd (updateCache key apiContent seconds writeTime cache))
     = Some (mkEntry apiContent writeTime seconds).
Proof.
  intros normalizedUrl Hkey Hmiss Hurl Hregistered Hapi Httl.
  split; [|rewrite updateCache_run; apply get_set_same].
  rewrite (scrapeWebsite_unfold _ _ _ _ url now writeTime cache key Hkey).
  fold normalizedUrl.
  assert (Hretrieve :
    tryM (scrapeWebsite_try newURL jsonLdType scrapeViaAPI fetchPage
            normalizedUrl key writeTime)
         (scrapeWebsite_catch normalizedUrl key) cache
    = (Normal ("API content from " ++ normalizedUrl ++ ":" ++ nl
                 ++ bar ++ nl ++ apiContent),
       snd (updateCache key apiContent seconds writeTime cache))).
  { unfold tryM.
    rewrite (scrapeWebsite_try_run newURL jsonLdType scrapeViaAPI fetchPage
               normalizedUrl key writeTime cache urlObj seconds Hurl Httl).
    cbv zeta. now rewrite Hregistered, Hapi. }
  destruct (JsMap.get key cache) as [entry|] eqn:E; [|exact Hretrieve].
  now rewrite (Hmiss entry eq_refl).
Qed.

Lemma scrapeWebsite_api_tier_witness :
  scrapeWebsite plainURL noType (fun _ => Normal "profile text") connectionTimesOut
    "github.com/rocq-prover" 100 101 []
  = (Normal ("API content from https://github.com/rocq-prover:" ++ nl
               ++ bar ++ nl ++ "profile text"),
     snd (updateCache "github.com/rocq-prover" "profile text" 1800 101 []))
  /\ JsMap.get "github.com/rocq-prover"
       (snd (updateCache "github.com/rocq-prover" "profile text" 1800 101 []))
     = Some (mkEntry "profile text" 101 1800).
Proof.
  refine (scrapeWebsite_api_tier plainURL noType (fun _ => Normal "profile text")
            connectionTimesOut "github.com/rocq-prover" 100 101 []
            "github.com/rocq-prover" (mkURL "github.com" "/rocq-prover")
            "profile text" 1800 eq_refl _ eq_refl eq_refl eq_refl eq_refl).
  intros entry H. discriminate H.
Defined.

(** X8: an error of the API tier shows nowhere: two calls that differ only in
    what the API throws give the same response and leave the same cache. *)
Theorem scrapeWebsite_api_error_is_hidden
  (newURL : string -> completion URL) (jsonLdType : string -> option string)
  (api1 api2 : string -> completion string) (fetchPage : string -> completion Page)
  (url : string) (now writeTime : Q) (cache : Cache) (error1 error2 : Thrown) :
  api1 (normalizeUrl url) = Throw error1 ->
  api2 (normalizeUrl url) = Throw error2 ->
  scrapeWebsite newURL jsonLdType api1 fetchPage url now writeTime cache
  = scrapeWebsite newURL jsonLdType api2 fetchPage url now writeTime cache.
Proof.
  intros H1 H2.
  assert (Htry : forall key,
    scrapeWebsite_try newURL jsonLdType api1 fetchPage (normalizeUrl url) key
      writeTime cache
    = scrapeWebsite_try newURL jsonLdType api2 fetchPage (normalizeUrl url) key
        writeTime cache).
  { intros key.
    destruct (newURL (normalizeUrl url)) as [urlObj|e] eqn:Hurl.
    - destruct (getCacheTTL_range newURL (normalizeUrl url)) as (seconds & Httl & _).
      rewrite !(scrapeWebsite_try_run _ _ _ _ _ _ _ _ urlObj seconds Hurl Httl).
      cbv zeta. now rewrite H1, H2.
    - unfold scrapeWebsite_try, bind, lift. now rewrite Hurl. }
  destruct (getCacheKey_total newURL (normalizeUrl url)) as [key Hkey].
  rewrite !(scrapeWebsite_unfold _ _ _ _ url now writeTime cache key Hkey).
  unfold tryM. now rewrite Htry.
Qed.

Lemma scrapeWebsite_api_error_is_hidden_witness :
  scrapeWebsite plainURL noType noApi pageLoads "github.com/rocq-prover" 100 101 []
  = scrapeWebsite plainURL noType (fun _ => Throw OtherValue) pageLoads
      "github.com/rocq-prover" 100 101 [].
Proof.
  apply (scrapeWebsite_api_error_is_hidden plainURL noType noApi
           (fun _ => Throw OtherValue) pageLoads "github.com/rocq-prover" 100 101 []
           (ErrorObject "No API available for this site") OtherValue);
    reflexivity.
Defined.

(** X9: on a miss, when the API tier is skipped or throws and the page is
    scraped, the text is returned and stored under the address's TTL in the
    other two branches as well: under the confidence label when the
    confidence exceeds 0.5 or the domain is on the basic list, however low
    the confidence then; under the plain label when the domain is on neither
    list and the confidence is at most 0.5. *)
Theorem scrapeWebsite_scrape_labels
  (newURL : string -> completion URL) (jsonLdType : string -> option string)
  (scrapeViaAPI : string -> completion string) (fetchPage : string -> completion Page)
  (url : string) (now writeTime : Q) (cache : Cache)
  (key : string) (urlObj : URL) (text : string) (confidence : float) (seconds : Z) :
  let normalizedUrl := normalizeUrl url in
  let domain := replaceFirst (hostname urlObj) "www." "" in
  let result :=
    scrapeWebsite newURL jsonLdType scrapeViaAPI fetchPage url now writeTime cache in
  getCacheKey newURL normalizedUrl = Normal key ->
  (forall entry, JsMap.get key cache = Some entry -> isFresh now entry = false) ->
  newURL normalizedUrl = Normal urlObj ->
  (inApi domain = false \/ exists apiError, scrapeViaAPI normalizedUrl = Throw apiError) ->
  enhancedBasicScrape newURL jsonLdType fetchPage normalizedUrl
  = Normal (text, confidence) ->
  getCacheTTL newURL normalizedUrl = Normal seconds ->
  arrayIncludes dynamic domain = false ->
  snd result = snd (updateCache key text seconds writeTime cache)
  /\ JsMap.get key (snd result) = Some (mkEntry text writeTime seconds)
  /\ fst result =
       Normal (if (0.5 <? confidence)%float || arrayIncludes basic domain
               then "Scraped content from " ++ normalizedUrl ++ " (confidence: "
                      ++ toFixed0 (confidence * 100)%float ++ "%):" ++ nl
                      ++ bar ++ nl ++ text
               else "Scraped content from " ++ normalizedUrl ++ ":" ++ nl
                      ++ bar ++ nl ++ text).
Proof.
  intros normalizedUrl domain result Hkey Hmiss Hurl Hapi Hscrape Httl Hstatic.
  assert (Hresult :
    result =
      (Normal (if (0.5 <? confidence)%float || arrayIncludes basic domain
               then "Scraped content from " ++ normalizedUrl ++ " (confidence: "
                      ++ toFixed0 (confidence * 100)%float ++ "%):" ++ nl
                      ++ bar ++ nl ++ text
               else "Scraped content from " ++ normalizedUrl ++ ":" ++ nl
                      ++ bar ++ nl ++ text),
       snd (updateCache key text seconds writeTime cache))).
  { unfold result.
    rewrite (scrapeWebsite_unfold _ _ _ _ url now writeTime cache key Hkey).
    fold normalizedUrl.
    assert (Hretrieve :
      tryM (scrapeWebsite_try newURL jsonLdType scrapeViaAPI fetchPage
              normalizedUrl key writeTime)
           (scrapeWebsite_catch normalizedUrl key) cache
      = (Normal (if (0.5 <? confidence)%float || arrayIncludes basic domain
                 then "Scraped content from " ++ normalizedUrl ++ " (confidence: "
                        ++ toFixed0 (confidence * 100)%float ++ "%):" ++ nl
                        ++ bar ++ nl ++ text
                 else "Scraped content from " ++ normalizedUrl ++ ":" ++ nl
                        ++ bar ++ nl ++ text),
         snd (updateCache key text seconds writeTime cache))).
    { unfold tryM.
      rewrite (scrapeWebsite_try_run newURL jsonLdType scrapeViaAPI fetchPage
                 normalizedUrl key writeTime cache urlObj seconds Hurl Httl).
      cbv zeta. fold domain. rewrite Hscrape, Hstatic.
      assert (Hskipped :
        (if inApi domain
         then match scrapeViaAPI normalizedUrl with
              | Normal apiContent => Some apiContent
              | Throw _ => None
              end
         else None) = None).
      { destruct Hapi as [->|[apiError ->]]; [reflexivity|].
        now destruct (inApi domain). }
      rewrite Hskipped.
      now destruct ((0.5 <? confidence)%float || arrayIncludes basic domain). }
    destruct (JsMap.get key cache) as [entry|] eqn:E; [|exact Hretrieve].
    now rewrite (Hmiss entry eq_refl). }
  rewrite Hresult. cbn [fst snd].
  split; [reflexivity | split; [|reflexivity]].
  rewrite updateCache_run. apply get_set_same.
Qed.

(** The profile host is on the basic list: with the API down and a title as
    the only find, the text still goes out under the confidence label. *)
Lemma scrapeWebsite_scrape_labels_witness :
  let result :=
    scrapeWebsite plainURL noType noApi pageLoads "github.com/rocq-prover" 100 101 [] in
  snd result
  = snd (updateCache "github.com/rocq-prover"
           ("Title: Profile" ++ nl ++ nl ++ "GitHub Profile Data:") 1800 101 [])
  /\ JsMap.get "github.com/rocq-prover" (snd result)
     = Some (mkEntry ("Title: Profile" ++ nl ++ nl ++ "GitHub Profile Data:") 101 1800)
  /\ fst result =
       Normal (if (0.5 <? 0.2)%float
                  || arrayIncludes basic (replaceFirst "github.com" "www." "")
               then "Scraped content from https://github.com/rocq-prover (confidence: "
                      ++ toFixed0 (0.2 * 100)%float ++ "%):" ++ nl ++ bar ++ nl
                      ++ ("Title: Profile" ++ nl ++ nl ++ "GitHub Profile Data:")
               else "Scraped content from https://github.com/rocq-prover:" ++ nl
                      ++ bar ++ nl
                      ++ ("Title: Profile" ++ nl ++ nl ++ "GitHub Profile Data:")).
Proof.
  refine (scrapeWebsite_scrape_labels plainURL noType noApi pageLoads
            "github.com/rocq-prover" 100 101 [] "github.com/rocq-prover"
            (mkURL "github.com" "/rocq-prover")
            ("Title: Profile" ++ nl ++ nl ++ "GitHub Profile Data:") 0.2%float 1800
            eq_refl _ eq_refl _ eq_refl eq_refl eq_refl).
  - intros entry H. discriminate H.
  - right. now exists (ErrorObject "No API available for this site").
Defined.

(** ** What the store holds *)

Lemma in_set (key : string) (value : CacheEntry) (m : Cache)
  (stored : string * CacheEntry) :
  In stored (JsMap.set key value m) -> stored = (key, value) \/ In stored m.
Proof.
  induction m as [|[k v] rest IH]; simpl.
  - intros [<-|[]]. now left.
  - destruct (k =? key) eqn:E; simpl.
    + apply String.eqb_eq in E. subst k. intros [<-|H]; auto.
    + intros [<-|H]; auto. destruct (IH H); auto.
Qed.

Lemma in_delete (key : string) (m : Cache) (stored : string * CacheEntry) :
  In stored (JsMap.delete key m) -> In stored m.
Proof.
  induction m as [|[k v] rest IH]; simpl; [easy|].
  destruct (k =? key); simpl; [now right|].
  intros [<-|H]; [now left | right; now apply IH].
Qed.

Lemma in_evictOldest (cache : Cache) (stored : string * CacheEntry) :
  In stored (evictOldest cache) -> In stored cache.
Proof.
  unfold evictOldest.
  generalize (firstn toRemove (sortBy oldestFirst (JsMap.entries cache))).
  intros gone. revert cache. induction gone as [|g gone IH]; intros cache; simpl.
  - easy.
  - intros H. apply IH in H. now apply in_delete in H.
Qed.

Lemma updateCache_keeps_invariant
  (cache : Cache) (key text : string) (seconds : Z) (now : Q) :
  storeInvariant cache -> (300 <= seconds <= 3600)%Z ->
  storeInvariant (snd (updateCache key text seconds now cache)).
Proof.
  intros (Hwf & Hsize & Httl) Hrange.
  destruct (runPut_invariant cache (mkPut key text seconds now) (conj Hwf Hsize))
    as [Hwf' Hsize'].
  unfold runPut in Hwf', Hsize'. cbn [put_key put_content put_ttl put_now] in *.
  split; [exact Hwf' | split; [exact Hsize'|]].
  rewrite updateCache_run. cbn [snd]. unfold ttlsInRange in *.
  apply Forall_forall. intros stored Hin. apply in_set in Hin.
  destruct Hin as [->|Hin]; [exact Hrange|].
  rewrite Forall_forall in Httl. apply Httl.
  destruct (cacheSizeLimit <=? JsMap.size cache)%nat; [|exact Hin].
  now apply in_evictOldest.
Qed.

(** Every call of scrapeWebsite returns, and leaves the cache as it was or
    as one call of updateCache with a TTL from 300 to 3600 leaves it. *)
Lemma scrapeWebsite_outcome
  (newURL : string -> completion URL) (jsonLdType : string -> option string)
  (scrapeViaAPI : string -> completion string) (fetchPage : string -> completion Page)
  (url : string) (now writeTime : Q) (cache : Cache) :
  let result :=
    scrapeWebsite newURL jsonLdType scrapeViaAPI fetchPage url now writeTime cache in
  (exists response, fst result = Normal response)
  /\ (snd result = cache
      \/ exists key text seconds,
           (300 <= seconds <= 3600)%Z
           /\ snd result = snd (updateCache key text seconds writeTime cache)).
Proof.
  intros result. unfold result.
  destruct (getCacheKey_total newURL (normalizeUrl url)) as [key Hkey].
  rewrite (scrapeWebsite_unfold _ _ _ _ url now writeTime cache key Hkey).
  assert (Hretrieve :
    (exists response,
       fst (tryM (scrapeWebsite_try newURL jsonLdType scrapeViaAPI fetchPage
                    (normalizeUrl url) key writeTime)
                 (scrapeWebsite_catch (normalizeUrl url) key) cache)
       = Normal response)
    /\ (snd (tryM (scrapeWebsite_try newURL jsonLdType scrapeViaAPI fetchPage
                     (normalizeUrl url) key writeTime)
                  (scrapeWebsite_catch (normalizeUrl url) key) cache) = cache
        \/ exists key' text seconds,
             (300 <= seconds <= 3600)%Z
             /\ snd (tryM (scrapeWebsite_try newURL jsonLdType scrapeViaAPI fetchPage
                             (normalizeUrl url) key writeTime)
                          (scrapeWebsite_catch (normalizeUrl url) key) cache)
                = snd (updateCache key' text seconds writeTime cache))).
  { unfold tryM.
    destruct (scrapeWebsite_try_cases newURL jsonLdType scrapeViaAPI fetchPage
                (normalizeUrl url) key writeTime cache)
      as [[error Hthrows]|(response & text0 & seconds0 & Hreturns)].
    - rewrite Hthrows, scrapeWebsite_catch_run. cbn [fst snd].
      split; [now eexists | now left].
    - destruct (scrapeWebsite_try_stores newURL jsonLdType scrapeViaAPI fetchPage
                  (normalizeUrl url) key writeTime cache response)
        as (label & text & seconds & _ & Hrange & Hstored);
        [now rewrite Hreturns|].
      rewrite Hreturns in *. cbn [fst snd] in *.
      split; [now eexists|]. right. now exists key, text, seconds. }
  destruct (JsMap.get key cache) as [entry|]; [|exact Hretrieve].
  destruct (isFresh now entry); [|exact Hretrieve].
  cbn [fst snd]. split; [now eexists | now left].
Qed.

(** ** The tool handler *)

Section HandlerFacts.

Variable newURL : string -> completion URL.
Variable jsonLdType : string -> option string.

Lemma callTool_keeps_invariant (request : ToolCall) (net : Network) (engine : Engine) :
  storeInvariant (engineCache engine) ->
  storeInvariant (engineCache (snd (callTool newURL jsonLdType request net engine))).
Proof.
  intros Hinv. unfold callTool.
  destruct (toolName request =? "check_internet").
  { destruct (checkInternetConnection (headStatus net) (clock net)
                (lastConnectivityCheck engine)) as [answer last]. exact Hinv. }
  destruct (toolName request =? "scrape_website").
  { destruct (arguments request) as [[| |url|]|]; try exact Hinv.
    destruct (scrapeWebsite_outcome newURL jsonLdType (apiText net) (pageAt net)
                url (clock net) (writeClock net) (engineCache engine))
      as [_ Hcache].
    destruct (scrapeWebsite newURL jsonLdType (apiText net) (pageAt net)
                url (clock net) (writeClock net) (engineCache engine))
      as [text cache]. cbn [fst snd engineCache] in *.
    destruct Hcache as [->|(key & stored & seconds & Hrange & ->)];
      [exact Hinv | now apply updateCache_keeps_invariant]. }
  destruct (toolName request =? "reset_cache"); [|exact Hinv].
  cbn [snd resetCache engineCache JsMap.clear].
  split; [constructor | split; [|constructor]].
  unfold JsMap.size, cacheSizeLimit. simpl. lia.
Qed.

Lemma session_app (before after : list (ToolCall * Network)) (engine : Engine) :
  session newURL jsonLdType (before ++ after) engine
  = (fst (session newURL jsonLdType before engine)
       ++ fst (session newURL jsonLdType after
                 (snd (session newURL jsonLdType before engine))),
     snd (session newURL jsonLdType after
            (snd (session newURL jsonLdType before engine))))%list.
Proof.
  revert engine. induction before as [|[request net] before IH]; intros engine; simpl.
  - now destruct (session newURL jsonLdType after engine).
  - destruct (callTool newURL jsonLdType request net engine) as [result engine'].
    rewrite IH.
    destruct (session newURL jsonLdType before engine') as [results middle].
    cbn [fst snd].
    now destruct (session newURL jsonLdType after middle).
Qed.

End HandlerFacts.

(** X10: whatever requests a server handles from its start, in whatever
    order and whatever the network does, the cache never holds more than 50
    entries, never holds a key twice, and every entry in it has a TTL from 300
    to 3600 seconds. *)
Theorem session_keeps_store_invariant
  (newURL : string -> completion URL) (jsonLdType : string -> option string)
  (requests : list (ToolCall * Network)) :
  let cache := engineCache (snd (session newURL jsonLdType requests newEngine)) in
  (JsMap.size cache <= 50)%nat
  /\ NoDup (JsMap.keys cache)
  /\ forall key entry, In (key, entry) cache -> (300 <= ttl entry <= 3600)%Z.
Proof.
  intros cache.
  assert (Hinv : forall engine,
             storeInvariant (engineCache engine) ->
             storeInvariant
               (engineCache (snd (session newURL jsonLdType requests engine)))).
  { induction requests as [|[request net] rest IH]; intros engine H; [exact H|].
    simpl.
    pose proof (callTool_keeps_invariant newURL jsonLdType request net engine H) as H'.
    destruct (callTool newURL jsonLdType request net engine) as [result engine'].
    specialize (IH engine' H').
    now destruct (session newURL jsonLdType rest engine'). }
  destruct (Hinv newEngine) as (Hwf & Hsize & Httl).
  { split; [constructor | split; [|constructor]].
    unfold JsMap.size, cacheSizeLimit. simpl. lia. }
  fold cache in Hwf, Hsize, Httl.
  split; [exact Hsize | split; [exact Hwf|]].
  intros key entry Hin. unfold ttlsInRange in Httl. rewrite Forall_forall in Httl.
  exact (Httl (key, entry) Hin).
Qed.

(** X11: a [reset_cache] request answers [Cache cleared] and wipes out
    everything earlier requests did: what follows it runs as on a server just
    started. *)
Theorem session_reset_forgets
  (newURL : string -> completion URL) (jsonLdType : string -> option string)
  (before after : list (ToolCall * Network))
  (args : option UrlValue) (net : Network) (engine : Engine) :
  session newURL jsonLdType (before ++ (mkCall "reset_cache" args, net) :: after) engine
  = (fst (session newURL jsonLdType before engine)
       ++ Normal "Cache cleared" :: fst (session newURL jsonLdType after newEngine),
     snd (session newURL jsonLdType after newEngine))%list.
Proof.
  rewrite session_app. cbn [session].
  set (middle := snd (session newURL jsonLdType before engine)).
  change (callTool newURL jsonLdType (mkCall "reset_cache" args) net middle)
    with (Normal "Cache cleared" : completion string, newEngine).
  cbv beta iota.
  now destruct (session newURL jsonLdType after newEngine).
Qed.

(** X12: the handler throws in two cases only, an unknown tool name (the
    message names it) and a [scrape_website] request whose [url] is not a
    string (no arguments, no [url], a null one, or one of another kind), and
    then it has changed nothing; [check_internet] answers one of two fixed
    texts and never touches the cache. *)
Theorem callTool_throws_only_on_bad_requests
  (newURL : string -> completion URL) (jsonLdType : string -> option string)
  (request : ToolCall) (net : Network) (engine : Engine) :
  let result := callTool newURL jsonLdType request net engine in
  ((exists e, fst result = Throw e) <->
   (toolName request <> "check_internet"
    /\ toolName request <> "scrape_website"
    /\ toolName request <> "reset_cache")
   \/ (toolName request = "scrape_website"
       /\ forall url, arguments request <> Some (UrlString url)))
  /\ (forall e, fst result = Throw e -> snd result = engine)
  /\ (toolName request <> "check_internet" ->
      toolName request <> "scrape_website" ->
      toolName request <> "reset_cache" ->
      fst result = Throw (ErrorObject ("Unknown tool: " ++ toolName request)))
  /\ (toolName request = "check_internet" ->
      (fst result = Normal "Internet: Connected"
       \/ fst result = Normal "Internet: Offline")
      /\ engineCache (snd result) = engineCache engine).
Proof.
  intros result. unfold result, callTool.
  destruct (String.eqb_spec (toolName request) "check_internet") as [Hcheck|Hcheck].
  { assert (Hanswer : exists connected last,
      checkInternetConnection (headStatus net) (clock net)
        (lastConnectivityCheck engine) = (Normal connected, last)).
    { unfold checkInternetConnection.
      destruct (lastConnectivityCheck engine) as [check|];
        [destruct (checkIsRecent (clock net) check)|];
        try destruct (headStatus net); repeat eexists. }
    destruct Hanswer as (connected & last & ->). cbn [fst snd engineCache].
    split; [|split; [discriminate | split; [congruence|]]].
    - split; [intros [e H]; discriminate H|].
      intros [(H & _ & _)|[H _]]; [contradiction | rewrite Hcheck in H; discriminate].
    - intros _. split; [|reflexivity]. destruct connected; auto. }
  destruct (String.eqb_spec (toolName request) "scrape_website") as [Hscrape|Hscrape].
  { destruct (arguments request) as [[| |url|]|] eqn:Hargs;
      try (cbn [fst snd];
           split; [|split; [reflexivity | split; [congruence | congruence]]];
           split; [|now eexists]; intros _; right;
           split; [exact Hscrape | discriminate]).
    destruct (scrapeWebsite_outcome newURL jsonLdType (apiText net) (pageAt net)
                  url (clock net) (writeClock net) (engineCache engine))
        as [[response Hresponse] _].
      destruct (scrapeWebsite newURL jsonLdType (apiText net) (pageAt net)
                  url (clock net) (writeClock net) (engineCache engine))
        as [text cache]. cbn [fst snd] in *. subst text.
      split; [|split; [discriminate | split; [congruence | congruence]]].
      split; [intros [e H]; discriminate H|].
      intros [(_ & H & _)|[_ H]]; [contradiction | now specialize (H url)]. }
  destruct (String.eqb_spec (toolName request) "reset_cache") as [Hreset|Hreset].
  { cbn [fst snd].
    split; [|split; [discriminate | split; [congruence | congruence]]].
    split; [intros [e H]; discriminate H|].
    intros [(_ & _ & H)|[H _]]; contradiction. }
  cbn [fst snd].
  split; [|split; [reflexivity | split; [reflexivity | congruence]]].
  split; [|now eexists]. intros _. now left.
Qed.

Lemma callTool_throws_only_on_bad_requests_witness :
  fst (callTool plainURL noType (mkCall "list_files" None)
         (mkNetwork (Normal 200%Z) noApi pageLoads 10 11) newEngine)
  = Throw (ErrorObject ("Unknown tool: " ++ "list_files"))
  /\ ((fst (callTool plainURL noType (mkCall "check_internet" None)
              (mkNetwork (Normal 200%Z) noApi pageLoads 10 11) newEngine)
       = Normal "Internet: Connected"
       \/ fst (callTool plainURL noType (mkCall "check_internet" None)
                 (mkNetwork (Normal 200%Z) noApi pageLoads 10 11) newEngine)
          = Normal "Internet: Offline")
      /\ engineCache
           (snd (callTool plainURL noType (mkCall "check_internet" None)
                   (mkNetwork (Normal 200%Z) noApi pageLoads 10 11) newEngine))
         = engineCache newEngine)
  /\ (exists e,
        fst (callTool plainURL noType (mkCall "scrape_website" (Some UrlOther))
               (mkNetwork (Normal 200%Z) noApi pageLoads 10 11) newEngine)
        = Throw e)
  /\ snd (callTool plainURL noType (mkCall "scrape_website" (Some UrlNull))
            (mkNetwork (Normal 200%Z) noApi pageLoads 10 11) newEngine)
     = newEngine.
Proof.
  split; [|split; [|split]].
  - apply (callTool_throws_only_on_bad_requests plainURL noType
             (mkCall "list_files" None)
             (mkNetwork (Normal 200%Z) noApi pageLoads 10 11) newEngine);
      discriminate.
  - apply (callTool_throws_only_on_bad_requests plainURL noType
             (mkCall "check_internet" None)
             (mkNetwork (Normal 200%Z) noApi pageLoads 10 11) newEngine).
    reflexivity.
  - apply (callTool_throws_only_on_bad_requests plainURL noType
             (mkCall "scrape_website" (Some UrlOther))
             (mkNetwork (Normal 200%Z) noApi pageLoads 10 11) newEngine).
    right. split; [reflexivity | discriminate].
  - pose proof (callTool_throws_only_on_bad_requests plainURL noType
                  (mkCall "scrape_website" (Some UrlNull))
                  (mkNetwork (Normal 200%Z) noApi pageLoads 10 11) newEngine)
      as (_ & Hsame & _).
    apply (Hsame (ErrorObject
                    "Cannot read properties of null (reading 'startsWith')")).
    reflexivity.
Defined.

(** ** What one call of updateCache does to the other entries *)

Lemma get_none_iff (key : string) (m : Cache) :
  JsMap.get key m = None <-> ~ In key (JsMap.keys m).
Proof.
  unfold JsMap.keys. induction m as [|[k v] rest IH]; simpl; [tauto|].
  destruct (String.eqb_spec k key) as [->|Hne].
  - split; [discriminate | intros H; exfalso; apply H; now left].
  - rewrite IH. split; [intros H [Heq|Hin]; auto | intros H Hin; apply H; now right].
Qed.

Lemma get_delete_other (key other : string) (m : Cache) :
  other <> key -> JsMap.get other (JsMap.delete key m) = JsMap.get other m.
Proof.
  intros Hne. induction m as [|[k v] rest IH]; simpl; [reflexivity|].
  destruct (String.eqb_spec k key) as [->|Hk]; simpl.
  - destruct (String.eqb_spec key other) as [Heq|_]; [congruence | reflexivity].
  - destruct (k =? other); [reflexivity | exact IH].
Qed.

Lemma get_delete_same (key : string) (m : Cache) :
  wellFormed m -> JsMap.get key (JsMap.delete key m) = None.
Proof.
  unfold wellFormed. induction m as [|[k v] rest IH]; simpl; intros Hwf; [reflexivity|].
  inversion Hwf as [|? ? Hk Hrest]; subst.
  destruct (String.eqb_spec k key) as [->|Hne]; simpl.
  - now apply get_none_iff.
  - destruct (String.eqb_spec k key) as [|_]; [contradiction | now apply IH].
Qed.

(** Deleting a list of keys from a well-formed store: those keys are gone,
    every other key reads as before. *)
Lemma get_delete_all (gone : list (string * CacheEntry)) (m : Cache) (other : string) :
  wellFormed m ->
  JsMap.get other (fold_left (fun m entry => JsMap.delete (fst entry) m) gone m)
  = if existsb (String.eqb other) (map fst gone) then None else JsMap.get other m.
Proof.
  revert m. induction gone as [|g gone IH]; intros m Hwf; simpl; [reflexivity|].
  rewrite IH by now apply wellFormed_delete.
  destruct (String.eqb_spec other (fst g)) as [->|Hne]; simpl.
  - rewrite get_delete_same by exact Hwf. now destruct (existsb _ _).
  - now rewrite get_delete_other.
Qed.

(** X13: a call of updateCache on a well-formed store changes no entry under
    another key, except that on a full store it removes the five oldest: a
    key among them reads as absent afterwards, and every other key reads
    exactly as before. *)
Theorem updateCache_frame
  (cache : Cache) (key text : string) (seconds : Z) (now : Q) (other : string) :
  wellFormed cache ->
  other <> key ->
  let after := snd (updateCache key text seconds now cache) in
  let oldest := firstn 5 (sortBy oldestFirst (JsMap.entries cache)) in
  ((JsMap.size cache < 50)%nat -> JsMap.get other after = JsMap.get other cache)
  /\ ((50 <= JsMap.size cache)%nat ->
      (In other (map fst oldest) -> JsMap.get other after = None)
      /\ (~ In other (map fst oldest) ->
          JsMap.get other after = JsMap.get other cache)).
Proof.
  intros Hwf Hne after oldest. unfold after.
  rewrite updateCache_run. cbn [snd]. rewrite get_set_other by exact Hne.
  unfold cacheSizeLimit. split.
  - intros Hroom. apply Nat.leb_gt in Hroom. now rewrite Hroom.
  - intros Hfull. apply Nat.leb_le in Hfull. rewrite Hfull.
    unfold evictOldest. rewrite get_delete_all by exact Hwf.
    rewrite toRemove_is_five. fold oldest.
    destruct (existsb (String.eqb other) (map fst oldest)) eqn:E.
    + split; [reflexivity|]. intros Hout. exfalso. apply Hout.
      apply existsb_exists in E. destruct E as (k & Hin & Heq).
      apply String.eqb_eq in Heq. now subst k.
    + split; [|reflexivity]. intros Hin. exfalso.
      assert (existsb (String.eqb other) (map fst oldest) = true)
        by (apply existsb_exists; exists other; split;
            [exact Hin | apply String.eqb_refl]).
      congruence.
Qed.

Lemma runPuts_wellFormed (puts : list Put) : wellFormed (runPuts puts).
Proof. apply runPuts_invariant. Qed.

(** On the full store of the example, a new key pushes [page4] out and
    leaves [page5] as it was. *)
Lemma updateCache_frame_witness :
  JsMap.get "page4" (snd (updateCache "page50" "text" 3600 50 (runPuts fiftyPuts)))
  = None
  /\ JsMap.get "page5" (snd (updateCache "page50" "text" 3600 50 (runPuts fiftyPuts)))
     = JsMap.get "page5" (runPuts fiftyPuts).
Proof.
  split.
  - apply (updateCache_frame (runPuts fiftyPuts) "page50" "text" 3600 50 "page4"
             (runPuts_wellFormed fiftyPuts)).
    + discriminate.
    + vm_compute. apply le_n.
    + vm_compute. tauto.
  - apply (updateCache_frame (runPuts fiftyPuts) "page50" "text" 3600 50 "page5"
             (runPuts_wellFormed fiftyPuts)).
    + discriminate.
    + vm_compute. apply le_n.
    + vm_compute. intros H.
      repeat (destruct H as [H|H]; [discriminate H|]). exact H.
Defined.

Lemma size_set (key : string) (value : CacheEntry) (m : Cache) :
  JsMap.size (JsMap.set key value m)
  = match JsMap.get key m with
    | Some _ => JsMap.size m
    | None => S (JsMap.size m)
    end.
Proof.
  unfold JsMap.size. induction m as [|[k v] rest IH]; simpl; [reflexivity|].
  destruct (k =? key); simpl; [reflexivity|].
  rewrite IH. now destruct (JsMap.get key rest).
Qed.

(** X14: a call on a full well-formed store never leaves it full: the store
    ends with 45 entries when the key was stored and is not among the five
    oldest, and with 46 otherwise; so after an eviction at least four more
    new keys fit before the next one. *)
Theorem updateCache_full_store_shrinks
  (cache : Cache) (key text : string) (seconds : Z) (now : Q) :
  wellFormed cache ->
  JsMap.size cache = 50%nat ->
  let after := snd (updateCache key text seconds now cache) in
  let oldest := firstn 5 (sortBy oldestFirst (JsMap.entries cache)) in
  JsMap.size after
  = (if existsb (String.eqb key) (map fst oldest) then 46
     else match JsMap.get key cache with
          | Some _ => 45
          | None => 46
          end)%nat.
Proof.
  intros Hwf Hfull after oldest. unfold after.
  rewrite updateCache_run. cbn [snd].
  assert (Hb : (cacheSizeLimit <=? JsMap.size cache)%nat = true)
    by (rewrite Hfull; reflexivity).
  rewrite Hb, size_set.
  pose proof (evictOldest_size cache Hwf) as Hsize.
  rewrite toRemove_is_five, Hfull in Hsize.
  assert (Hleft : JsMap.size (evictOldest cache) = 45%nat) by lia.
  rewrite Hleft. unfold evictOldest.
  rewrite get_delete_all by exact Hwf. rewrite toRemove_is_five. fold oldest.
  destruct (existsb (String.eqb key) (map fst oldest)); [reflexivity|].
  now destruct (JsMap.get key cache).
Qed.

Lemma updateCache_full_store_shrinks_witness :
  JsMap.size (snd (updateCache "page7" "again" 3600 50 (runPuts fiftyPuts)))
  = (if existsb (String.eqb "page7")
          (map fst (firstn 5 (sortBy oldestFirst (JsMap.entries (runPuts fiftyPuts)))))
     then 46
     else match JsMap.get "page7" (runPuts fiftyPuts) with
          | Some _ => 45
          | None => 46
          end)%nat.
Proof.
  apply (updateCache_full_store_shrinks (runPuts fiftyPuts) "page7" "again" 3600 50
           (runPuts_wellFormed fiftyPuts)).
  vm_compute. reflexivity.
Defined.

(** ** The extractor *)

Lemma scoreCandidate_some (el : Candidate) (block : Block) :
  scoreCandidate el = Some block ->
  text block = own_text el
  /\ (50 <= String.length (text block))%nat
  /\ (2 <= score block <= 3)%nat.
Proof.
  unfold scoreCandidate.
  destruct (String.length (own_text el) <? 50)%nat eqn:E; [discriminate|].
  apply Nat.ltb_ge in E.
  set (words := if (10 <? splitCount (own_text el))%nat then 1%nat else 0%nat).
  set (links := if (_ <? 0.3)%float then 1%nat else 0%nat).
  set (marks := if (0.5 <? _)%float then 1%nat else 0%nat).
  destruct (2 <=? words + links + marks)%nat eqn:S; [|discriminate].
  apply Nat.leb_le in S. intros H. injection H as <-. cbn [text score].
  split; [reflexivity | split; [exact E|]].
  split; [exact S|].
  subst words links marks.
  destruct (10 <? splitCount (own_text el))%nat;
    destruct (_ <? 0.3)%float; destruct (0.5 <? _)%float; lia.
Qed.

Lemma in_densityBlocks (doc : Document) (block : Block) :
  In block (densityBlocks doc) ->
  exists el, In el (candidates doc) /\ scoreCandidate el = Some block.
Proof.
  unfold densityBlocks. rewrite in_flat_map. intros (el & Hel & Hin).
  exists el. split; [exact Hel|].
  destruct (scoreCandidate el) as [b|]; [|contradiction].
  destruct Hin as [->|[]]. reflexivity.
Qed.

(** X15: every block the extractor returns is longer than 20 characters,
    and a block that comes from the density fallback has at least 50. *)
Theorem extractMainContent_block_lengths (doc : Document) :
  Forall (fun block => (20 < String.length block)%nat) (extractMainContent doc)
  /\ Forall (fun block => (50 <= String.length block)%nat) (densityFallback doc).
Proof.
  assert (Hdensity :
    Forall (fun block => (50 <= String.length block)%nat) (densityFallback doc)).
  { unfold densityFallback. apply Forall_forall. intros block Hin.
    apply in_map_iff in Hin. destruct Hin as (b & <- & Hb).
    apply in_firstn in Hb.
    apply (Permutation_in _ (sortBy_perm blockBefore (densityBlocks doc))) in Hb.
    destruct (in_densityBlocks doc b Hb) as (el & _ & Hscore).
    now apply scoreCandidate_some in Hscore. }
  split; [|exact Hdensity].
  unfold extractMainContent.
  destruct (selectorCascade doc contentSelectors) as [paragraphs|] eqn:E.
  - destruct (selectorCascade_some doc _ _ E) as (selector & _ & _ & ->).
    apply Forall_forall. intros block Hin. apply filter_In in Hin.
    destruct Hin as [_ Hlong]. now apply Nat.ltb_lt in Hlong.
  - eapply Forall_impl; [|exact Hdensity]. simpl. intros; lia.
Qed.

Lemma blockBefore_iff (a b : Block) :
  blockBefore a b = true <->
  (score b < score a)%nat
  \/ (score a = score b
      /\ (String.length (text b) <= String.length (text a))%nat).
Proof.
  unfold blockBefore, compareBlocks. rewrite Z.leb_le.
  destruct (Z.eqb_spec (Z.of_nat (score b) - Z.of_nat (score a)) 0); lia.
Qed.

Lemma blockBefore_total (a b : Block) :
  blockBefore a b = false -> blockBefore b a = true.
Proof.
  intros H. apply blockBefore_iff.
  destruct (blockBefore a b) eqn:E; [discriminate|].
  assert (Hn : ~ ((score b < score a)%nat
                   \/ (score a = score b
                       /\ (String.length (text b) <= String.length (text a))%nat))).
  { intros Hc. apply blockBefore_iff in Hc. congruence. }
  lia.
Qed.

Lemma blockBefore_trans (a b c : Block) :
  blockBefore a b = true -> blockBefore b c = true -> blockBefore a c = true.
Proof. rewrite !blockBefore_iff. lia. Qed.

(** X16: the density fallback keeps the best blocks: of the blocks that
    score 2 or 3 it returns the texts of ten (of all, when there are fewer),
    and each block it drops has a lower score than each block it keeps, or the
    same score and no more characters. *)
Theorem densityFallback_keeps_the_best (doc : Document) :
  exists kept dropped,
    Permutation (densityBlocks doc) (kept ++ dropped)
    /\ densityFallback doc = map text kept
    /\ List.length kept = Nat.min 10 (List.length (densityBlocks doc))
    /\ (forall a, In a kept -> (2 <= score a <= 3)%nat)
    /\ (forall a b, In a kept -> In b dropped ->
        (score b < score a)%nat
        \/ (score a = score b
            /\ (String.length (text b) <= String.length (text a))%nat)).
Proof.
  exists (firstn 10 (sortBy blockBefore (densityBlocks doc))),
         (skipn 10 (sortBy blockBefore (densityBlocks doc))).
  split; [rewrite firstn_skipn; symmetry; apply sortBy_perm|].
  split; [reflexivity|].
  split; [rewrite length_firstn, sortBy_length; reflexivity|].
  split.
  - intros a Ha. apply in_firstn in Ha.
    apply (Permutation_in _ (sortBy_perm blockBefore (densityBlocks doc))) in Ha.
    destruct (in_densityBlocks doc a Ha) as (el & _ & Hscore).
    now apply scoreCandidate_some in Hscore.
  - intros a b Ha Hb. apply blockBefore_iff.
    apply (sorted_cut blockBefore 10 (sortBy blockBefore (densityBlocks doc)));
      [|exact Ha | exact Hb].
    apply sortBy_sorted; [apply blockBefore_total | apply blockBefore_trans].
Qed.

(** ** The confidence label *)

(** X17: the percentage in the confidence label is exact: it is ten times
    the number of tenths the signals add up to, so a multiple of ten from 0 to
    100, and the rounding errors of the score never show in it. *)
Theorem confidence_label_is_exact (content : ExtractedContent) :
  toFixed0 (calculateConfidence content * 100)%float
  = decimal (10 * exactTenths content)
  /\ (0 <= exactTenths content <= 10)%Z.
Proof.
  confidence_cases content; split; vm_compute; try reflexivity;
    split; discriminate.
Qed.

(** ** The scorer is monotone *)

Lemma calculateConfidence_signals (content : ExtractedContent) :
  calculateConfidence content =
    scoreOfSignals (0 <? List.length (jsonLd content))%nat
                   (truthy (title (metaData content)))
                   (truthy (description (metaData content)))
                   (lengthClass (String.length (join "" (mainContent content))))
                   (hasProfileId content).
Proof. unfold lengthClass. confidence_cases content; reflexivity. Qed.

Lemma scoreOfSignals_monotone
  (s t d : bool) (c : LengthClass) (p : bool)
  (s' t' d' : bool) (c' : LengthClass) (p' : bool) :
  implb s s' = true -> implb t t' = true -> implb d d' = true ->
  (classRank c <= classRank c')%nat -> implb p p' = true ->
  (scoreOfSignals s t d c p <=? scoreOfSignals s' t' d' c' p')%float = true.
Proof.
  destruct s, s'; try discriminate; intros _;
    destruct t, t'; try discriminate; intros _;
    destruct d, d'; try discriminate; intros _;
    destruct c, c'; simpl; intros Hc; try (exfalso; lia); clear Hc;
    destruct p, p'; try discriminate; intros _; vm_compute; reflexivity.
Qed.

Lemma lengthClass_monotone (n m : nat) :
  (n <= m)%nat -> (classRank (lengthClass n) <= classRank (lengthClass m))%nat.
Proof.
  intros H. unfold lengthClass.
  destruct (Nat.ltb_spec 500 n); destruct (Nat.ltb_spec 500 m);
    destruct (Nat.ltb_spec 200 n); destruct (Nat.ltb_spec 200 m);
    destruct (Nat.ltb_spec 50 n); destruct (Nat.ltb_spec 50 m); simpl; lia.
Qed.

Lemma implb_of_imp (a b : bool) : (a = true -> b = true) -> implb a b = true.
Proof. destruct a, b; simpl; auto. Qed.

(** X18: finding more never lowers the score: when every signal that one
    content shows the other shows too, and the other's main content is at
    least as long, the other's score, as computed in binary64, is at least
    as high. *)
Theorem calculateConfidence_monotone (less more : ExtractedContent) :
  (jsonLd less <> [] -> jsonLd more <> []) ->
  (truthy (title (metaData less)) = true -> truthy (title (metaData more)) = true) ->
  (truthy (description (metaData less)) = true ->
   truthy (description (metaData more)) = true) ->
  (String.length (join "" (mainContent less))
   <= String.length (join "" (mainContent more)))%nat ->
  (hasProfileId less = true -> hasProfileId more = true) ->
  (calculateConfidence less <=? calculateConfidence more)%float = true.
Proof.
  intros Hstructured Htitle Hdescription Hlength Hprofile.
  rewrite !calculateConfidence_signals.
  apply scoreOfSignals_monotone.
  - apply implb_of_imp. intros H.
    destruct (jsonLd less); [discriminate H|].
    destruct (jsonLd more); [exfalso; now apply Hstructured | reflexivity].
  - now apply implb_of_imp.
  - now apply implb_of_imp.
  - now apply lengthClass_monotone.
  - now apply implb_of_imp.
Qed.

Lemma calculateConfidence_monotone_witness :
  (calculateConfidence
     (mkContent [] (mkMetaData (Some "t") None None None None) [] None [])
   <=? calculateConfidence
         (mkContent ["{}"] (mkMetaData (Some "t") (Some "d") None None None)
                    ["a block"] None []))%float = true.
Proof.
  apply calculateConfidence_monotone.
  - intros H. now contradiction H.
  - reflexivity.
  - discriminate.
  - simpl. lia.
  - discriminate.
Defined.

(** ** The formatter's fallback text *)

Lemma firstChar_join (sep part : string) (parts : list string) :
  part <> "" -> firstChar (join sep (part :: parts)) = firstChar part.
Proof.
  intros Hne. destruct part as [|c part]; [contradiction|].
  unfold join. simpl. now destruct parts.
Qed.

(** The parts start with a line that does not begin with [N], unless there
    is nothing to format and no part at all. *)
Lemma formatParts_head (jsonLdType : string -> option string) (content : ExtractedContent) :
  (emptyContent content /\ formatParts jsonLdType content = [])
  \/ (~ emptyContent content
      /\ exists c rest others,
           formatParts jsonLdType content = String c rest :: others
           /\ c <> "N"%char).
Proof.
  unfold emptyContent, formatParts, push, pushAll, truthy, nonEmpty.
  destruct (title (metaData content)) as [t|];
    [destruct (negb (t =? ""))|];
    (destruct (description (metaData content)) as [d|];
     [destruct (negb (d =? ""))|]);
    (destruct (githubData content) as [g|];
     [destruct (negb (username g =? "")); destruct (negb (bio g =? ""));
      destruct (stats g)|]);
    destruct (mainContent content); destruct (jsonLd content); simpl;
    first
      [ left; repeat split; reflexivity
      | right; split;
        [ intros (H1 & H2 & H3 & H4 & H5); congruence
        | do 3 eexists; split; [reflexivity | discriminate] ] ].
Qed.

(** X19: formatContent gives [No content found] exactly when nothing was
    extracted: no title, no description, no profile data, no main-content
    block and no structured-data block; and it never gives the empty text. *)
Theorem formatContent_fallback_iff
  (jsonLdType : string -> option string) (content : ExtractedContent) :
  (formatContent jsonLdType content = "No content found" <-> emptyContent content)
  /\ formatContent jsonLdType content <> "".
Proof.
  unfold formatContent.
  destruct (formatParts_head jsonLdType content)
    as [[Hempty ->]|(Hfull & c & rest & others & -> & Hc)].
  - simpl. split; [tauto | discriminate].
  - assert (Hfirst : firstChar (join nl (String c rest :: others)) = Some c)
      by (rewrite firstChar_join; [reflexivity | discriminate]).
    destruct (join nl (String c rest :: others)) as [|c' joined] eqn:E;
      [discriminate Hfirst|].
    simpl in Hfirst. injection Hfirst as ->.
    cbn. split; [|discriminate].
    split; [|contradiction].
    intros H. injection H as -> _. now contradiction Hc.
Qed.

(** ** The structured-API adapter *)

Lemma scrapeWebsite_same_when_api_throws
  (newURL : string -> completion URL) (jsonLdType : string -> option string)
  (api1 api2 : string -> completion string) (fetchPage : string -> completion Page)
  (url : string) (now writeTime : Q) (cache : Cache) :
  (exists e, api1 (normalizeUrl url) = Throw e) ->
  (exists e, api2 (normalizeUrl url) = Throw e) ->
  scrapeWebsite newURL jsonLdType api1 fetchPage url now writeTime cache
  = scrapeWebsite newURL jsonLdType api2 fetchPage url now writeTime cache.
Proof.
  intros [e1 H1] [e2 H2].
  unfold scrapeWebsite, scrapeWebsite_try, bind, lift, tryM, reads, ret.
  destruct (getCacheKey newURL (normalizeUrl url)) as [key|]; [|reflexivity].
  rewrite H1, H2. reflexivity.
Qed.

Section StructuredApiFacts.

Variable newURL : string -> completion URL.
Variable api : ApiNetwork.

Lemma scrapeViaAPI_parsed (url : string) (urlObj : URL) :
  newURL url = Normal urlObj ->
  scrapeViaAPI newURL api url =
    let domain := replaceFirst (hostname urlObj) "www." "" in
    match viaProfileHost api domain urlObj with
    | Normal (Some text) => Normal text
    | Normal None =>
        match viaAggregator api domain urlObj with
        | Normal (Some text) => Normal text
        | Normal None => Throw (ErrorObject "No API available for this site")
        | Throw e => Throw e
        end
    | Throw e => Throw e
    end.
Proof.
  intros H. unfold scrapeViaAPI. rewrite H. cbn [and_then].
  destruct (viaProfileHost api _ urlObj) as [[text|]|e]; [|reflexivity..].
  reflexivity.
Qed.

Lemma allStories_length
  (items : list (completion (option Story))) (stories : list Story) :
  allStories items = Normal stories -> List.length stories = List.length items.
Proof.
  revert stories. induction items as [|item items IH]; intros stories; simpl.
  - intros H. now injection H as <-.
  - destruct item as [[story|]|e]; simpl; try discriminate.
    + destruct (allStories items) as [rest|e]; simpl; [|discriminate].
      intros H. injection H as <-. simpl. now rewrite (IH rest eq_refl).
    + destruct (allStories items); discriminate.
Qed.

(** The aggregator branch returns a listing or leaves the branch: it never
    throws. *)
Lemma viaAggregator_cases (domain : string) (urlObj : URL) :
  viaAggregator api domain urlObj = Normal None
  \/ exists stories,
       (List.length stories <= 10)%nat
       /\ viaAggregator api domain urlObj
          = Normal (Some (join nl (("Hacker News Top Stories:" ++ nl)
                                     :: storiesLines 0 stories))).
Proof.
  unfold viaAggregator.
  destruct (includes domain "news.ycombinator.com"); [|now left].
  destruct ((pathname urlObj =? "/") || (pathname urlObj =? "/news")); [|now left].
  destruct (getTopStories api) as [ids|e]; [|now left]. cbn [and_then].
  destruct (allStories (map (getItem api) (firstn 10 ids))) as [stories|e] eqn:E;
    [|now left].
  right. exists stories. split; [|reflexivity].
  apply allStories_length in E. rewrite E, length_map. apply firstn_le_length.
Qed.

End StructuredApiFacts.

(** X20: for an address the adapter has no branch for (a domain that
    contains neither [github.com] nor [news.ycombinator.com], the profile host
    without a user name in the path, the aggregator off its front page), it
    throws [No API available for this site] whatever the network does; so
    retrieval goes on exactly as with no API at all, also for the registered
    [reddit.com]. *)
Theorem scrapeViaAPI_unsupported_address
  (newURL : string -> completion URL) (api : ApiNetwork)
  (url : string) (urlObj : URL) :
  let domain := replaceFirst (hostname urlObj) "www." "" in
  newURL (normalizeUrl url) = Normal urlObj ->
  (includes domain "github.com" = false
   \/ filter nonEmpty (splitOn "/" (pathname urlObj)) = []) ->
  (includes domain "news.ycombinator.com" = false
   \/ (pathname urlObj <> "/" /\ pathname urlObj <> "/news")) ->
  scrapeViaAPI newURL api (normalizeUrl url)
  = Throw (ErrorObject "No API available for this site")
  /\ forall jsonLdType fetchPage now writeTime cache,
       scrapeWebsite newURL jsonLdType (scrapeViaAPI newURL api) fetchPage
         url now writeTime cache
       = scrapeWebsite newURL jsonLdType noApi fetchPage url now writeTime cache.
Proof.
  intros domain Hurl Hprofile Hlisting.
  assert (Hthrows : scrapeViaAPI newURL api (normalizeUrl url)
                    = Throw (ErrorObject "No API available for this site")).
  { rewrite (scrapeViaAPI_parsed newURL api _ urlObj Hurl). cbv zeta. fold domain.
    assert (Hp : viaProfileHost api domain urlObj = Normal None).
    { unfold viaProfileHost. destruct Hprofile as [->| ->]; [reflexivity|].
      now destruct (includes domain "github.com"). }
    assert (Hl : viaAggregator api domain urlObj = Normal None).
    { unfold viaAggregator. destruct Hlisting as [->|[Hroot Hnews]]; [reflexivity|].
      apply String.eqb_neq in Hroot, Hnews. rewrite Hroot, Hnews.
      now destruct (includes domain "news.ycombinator.com"). }
    now rewrite Hp, Hl. }
  split; [exact Hthrows|].
  intros jsonLdType fetchPage now writeTime cache.
  apply scrapeWebsite_same_when_api_throws.
  - eexists. exact Hthrows.
  - eexists. reflexivity.
Qed.

Lemma scrapeViaAPI_unsupported_address_witness :
  inApi "reddit.com" = true
  /\ scrapeViaAPI plainURL quietApi (normalizeUrl "www.reddit.com/r/rocq")
     = Throw (ErrorObject "No API available for this site").
Proof.
  split; [reflexivity|].
  apply (scrapeViaAPI_unsupported_address plainURL quietApi "www.reddit.com/r/rocq"
           (mkURL "www.reddit.com" "/r/rocq") eq_refl); left; reflexivity.
Defined.

(** X21: for an address off the profile host the adapter either returns the
    aggregator's listing, of at most ten stories under its heading, or throws
    [No API available for this site]: no error of the aggregator's own
    requests, and no null story, ever reaches the caller. *)
Theorem scrapeViaAPI_aggregator_errors_are_swallowed
  (newURL : string -> completion URL) (api : ApiNetwork)
  (url : string) (urlObj : URL) :
  newURL url = Normal urlObj ->
  includes (replaceFirst (hostname urlObj) "www." "") "github.com" = false ->
  scrapeViaAPI newURL api url = Throw (ErrorObject "No API available for this site")
  \/ exists stories,
       (List.length stories <= 10)%nat
       /\ scrapeViaAPI newURL api url
          = Normal (join nl (("Hacker News Top Stories:" ++ nl)
                               :: storiesLines 0 stories)).
Proof.
  intros Hurl Hhost.
  rewrite (scrapeViaAPI_parsed newURL api url urlObj Hurl). cbv zeta.
  unfold viaProfileHost. rewrite Hhost.
  destruct (viaAggregator_cases api (replaceFirst (hostname urlObj) "www." "") urlObj)
    as [->|(stories & Hlen & ->)]; [now left|].
  right. now exists stories.
Qed.

Lemma scrapeViaAPI_aggregator_witness :
  scrapeViaAPI plainURL brokenItems "https://news.ycombinator.com/news"
  = Throw (ErrorObject "No API available for this site")
  \/ exists stories,
       (List.length stories <= 10)%nat
       /\ scrapeViaAPI plainURL brokenItems "https://news.ycombinator.com/news"
          = Normal (join nl (("Hacker News Top Stories:" ++ nl)
                               :: storiesLines 0 stories)).
Proof.
  apply (scrapeViaAPI_aggregator_errors_are_swallowed plainURL brokenItems
           "https://news.ycombinator.com/news"
           (mkURL "news.ycombinator.com" "/news") eq_refl eq_refl).
Defined.

Lemma formatProfile_truncates
  (username : string) (user : ApiUser) (repos : list ApiRepo) (events : list ApiEvent) :
  formatProfile username user (firstn 5 repos) (firstn 3 events)
  = formatProfile username user repos events.
Proof.
  unfold formatProfile.
  rewrite !firstn_firstn_same.
  rewrite (nonempty_firstn 4 repos), (nonempty_firstn 2 events). reflexivity.
Qed.

(** X22: for an address of the profile host with a user name in its path,
    when the user and the repository requests succeed the adapter returns the
    profile text; a failure of the activity request changes nothing but the
    activity section, which is left out as for a user without events; and
    only the first five repositories and the first three events show. *)
Theorem scrapeViaAPI_profile
  (newURL : string -> completion URL) (api : ApiNetwork)
  (url : string) (urlObj : URL) (username : string) (others : list string)
  (user : ApiUser) (repos : list ApiRepo) :
  newURL url = Normal urlObj ->
  includes (replaceFirst (hostname urlObj) "www." "") "github.com" = true ->
  filter nonEmpty (splitOn "/" (pathname urlObj)) = username :: others ->
  getUser api username = Normal user ->
  getRepos api username = Normal repos ->
  let events :=
    match getEvents api username with
    | Normal data => data
    | Throw _ => []
    end in
  scrapeViaAPI newURL api url
  = Normal (formatProfile username user (firstn 5 repos) (firstn 3 events)).
Proof.
  intros Hurl Hhost Hpath Huser Hrepos events.
  rewrite (scrapeViaAPI_parsed newURL api url urlObj Hurl). cbv zeta.
  unfold viaProfileHost, profileRequests. rewrite Hhost, Hpath, Huser, Hrepos.
  cbn [and_then try_catch]. fold events.
  now rewrite formatProfile_truncates.
Qed.

Lemma scrapeViaAPI_profile_witness :
  scrapeViaAPI plainURL activityDown "https://github.com/ada/engine"
  = Normal (formatProfile "ada" sampleUser
              (firstn 5 [mkApiRepo "engine" false None (Some "Rocq") 1 0])
              (firstn 3 [])).
Proof.
  apply (scrapeViaAPI_profile plainURL activityDown "https://github.com/ada/engine"
           (mkURL "github.com" "/ada/engine") "ada" ["engine"] sampleUser
           [mkApiRepo "engine" false None (Some "Rocq") 1 0]);
    reflexivity.
Defined.

(** X23: when the user request or the repository request fails, the adapter
    throws the error of one of the two, so that retrieval falls back to
    scraping the page as if there were no API. *)
Theorem scrapeViaAPI_profile_failure
  (newURL : string -> completion URL) (api : ApiNetwork)
  (url : string) (urlObj : URL) (username : string) (others : list string) :
  newURL (normalizeUrl url) = Normal urlObj ->
  includes (replaceFirst (hostname urlObj) "www." "") "github.com" = true ->
  filter nonEmpty (splitOn "/" (pathname urlObj)) = username :: others ->
  ((exists e, getUser api username = Throw e)
   \/ (exists e, getRepos api username = Throw e)) ->
  (exists error,
     scrapeViaAPI newURL api (normalizeUrl url) = Throw error
     /\ (getUser api username = Throw error \/ getRepos api username = Throw error))
  /\ forall jsonLdType fetchPage now writeTime cache,
       scrapeWebsite newURL jsonLdType (scrapeViaAPI newURL api) fetchPage
         url now writeTime cache
       = scrapeWebsite newURL jsonLdType noApi fetchPage url now writeTime cache.
Proof.
  intros Hurl Hhost Hpath Hfails.
  assert (Hthrows : exists error,
    scrapeViaAPI newURL api (normalizeUrl url) = Throw error
    /\ (getUser api username = Throw error \/ getRepos api username = Throw error)).
  { rewrite (scrapeViaAPI_parsed newURL api _ urlObj Hurl). cbv zeta.
    unfold viaProfileHost, profileRequests. rewrite Hhost, Hpath.
    destruct (getUser api username) as [user|userError];
      destruct (getRepos api username) as [repos|reposError];
      cbn [and_then try_catch].
    - destruct Hfails as [[e H]|[e H]]; discriminate H.
    - exists reposError. auto.
    - exists userError. auto.
    - destruct (reposRejectsFirst api); [exists reposError | exists userError]; auto. }
  split; [exact Hthrows|].
  intros jsonLdType fetchPage now writeTime cache.
  destruct Hthrows as (error & Herror & _).
  apply scrapeWebsite_same_when_api_throws.
  - eexists. exact Herror.
  - eexists. reflexivity.
Qed.

Lemma scrapeViaAPI_profile_failure_witness :
  scrapeWebsite plainURL noType (scrapeViaAPI plainURL userMissing) pageLoads
    "github.com/nobody" 100 101 []
  = scrapeWebsite plainURL noType noApi pageLoads "github.com/nobody" 100 101 [].
Proof.
  apply (scrapeViaAPI_profile_failure plainURL userMissing "github.com/nobody"
           (mkURL "github.com" "/nobody") "nobody" [] eq_refl eq_refl eq_refl).
  left. now eexists.
Defined.
